(** * swapd: daemon lifecycle and the XMRTaker instance

    A shallow embedding of [cmd/swapd/main.go] and of the XMRTaker
    [Instance] file of the atomic-swap daemon.  Calls into other packages
    (database, network host, RPC server, Ethereum client, Monero wallet,
    contract bindings, ...) are not part of the embedded files: their
    results are read from a record of oracles, [Externals], and every
    call is recorded, in program order, in a trace of events. *)

From stdpp Require Import gmap strings list pretty.
From Stdlib Require Import ZArith.

Local Open Scope string_scope.
Local Open Scope N_scope.

(** ** Errors *)

(** Error values.  The constructors stand for the [fmt.Errorf] calls of
    the two files; [ErrExternal] is an error made by another package. *)
Inductive Environment := Mainnet | Stagenet | Development.

Inductive Error :=
| ErrFlagsMutuallyExclusive (flag1 flag2 : string)
| ErrFlagValueEmpty (flag : string)
| ErrInvalidLogLevel (level : string)
| ErrNotValidContractAddress (s : string)
| ErrDeployOrAddressRequired (flag1 flag2 : string) (env : Environment)
| ErrFailedToMakeBackend (cause : Error)
| ErrCreateOrOpenDepositWallet (cause : Error)
| ErrGetWalletAddress (cause : Error)
| ErrCloseWallet (cause : Error)
| ErrNoOngoingSwap
| ErrServerClosed
| ErrExternal (msg : string).

(** [errors.Is err http.ErrServerClosed]: follows the [%w] chain. *)
Fixpoint isServerClosed (e : Error) : bool :=
  match e with
  | ErrServerClosed => true
  | ErrFailedToMakeBackend c | ErrCreateOrOpenDepositWallet c
  | ErrGetWalletAddress c | ErrCloseWallet c => isServerClosed c
  | _ => false
  end.

Definition errFlagsMutuallyExclusive (flag1 flag2 : string) : Error :=
  ErrFlagsMutuallyExclusive flag1 flag2.

Definition errFlagValueEmpty (flag : string) : Error :=
  ErrFlagValueEmpty flag.

Definition errNoOngoingSwap : Error := ErrNoOngoingSwap.

(** ** Command line context *)

Definition defaultLibp2pPort : N := 9900.
Definition defaultXMRTakerLibp2pPort : N := 9933.
Definition defaultXMRMakerLibp2pPort : N := 9934.
Definition defaultRPCPort : N := 5005.
Definition defaultXMRTakerRPCPort : N := 5001.
Definition defaultXMRMakerRPCPort : N := 5002.

Definition flagRPCPort := "rpc-port".
Definition flagDataDir := "data-dir".
Definition flagLibp2pKey := "libp2p-key".
Definition flagLibp2pPort := "libp2p-port".
Definition flagBootnodes := "bootnodes".
Definition flagEnv := "env".
Definition flagMoneroDaemonHost := "monerod-host".
Definition flagMoneroDaemonPort := "monerod-port".
Definition flagMoneroWalletPath := "wallet-file".
Definition flagMoneroWalletPassword := "wallet-password".
Definition flagMoneroWalletPort := "wallet-port".
Definition flagEthereumEndpoint := "ethereum-endpoint".
Definition flagEthereumPrivKey := "ethereum-privkey".
Definition flagContractAddress := "contract-address".
Definition flagGasPrice := "gas-price".
Definition flagGasLimit := "gas-limit".
Definition flagUseExternalSigner := "external-signer".
Definition flagDevXMRTaker := "dev-xmrtaker".
Definition flagDevXMRMaker := "dev-xmrmaker".
Definition flagDeploy := "deploy".
Definition flagTransferBack := "transfer-back".
Definition flagLogLevel := "log-level".

(** The value of a flag: [cli.StringFlag], [cli.BoolFlag], [cli.UintFlag]
    (a 64-bit unsigned integer) and [cli.StringSliceFlag]. *)
Inductive FlagValue :=
| VString (s : string)
| VBool (b : bool)
| VUint (n : N)
| VSlice (l : list string).

(** A [cli.Context] is the map of the flags given on the command line. *)
Abbreviation Context := (gmap string FlagValue).

(** The [Value] fields of [app.Flags].  The defaults of [libp2p-key],
    [monerod-port], [wallet-file] and [ethereum-privkey] are built from
    constants of package [common]; the daemon reads those four flags
    only under [c.IsSet], so they are left out of the table. *)
Definition appDefaults : gmap string FlagValue :=
  <[flagRPCPort := VUint defaultRPCPort]>
  (<[flagDataDir := VString "{HOME}/.atomicswap/{ENV}"]>
  (<[flagLibp2pPort := VUint defaultLibp2pPort]>
  (<[flagEnv := VString "dev"]>
  (<[flagMoneroDaemonHost := VString "127.0.0.1"]>
  (<[flagLogLevel := VString "info"]> ∅))))).

Module cli.
Definition flagValue (c : Context) (name : string) : option FlagValue :=
  match c !! name with
  | Some v => Some v
  | None => appDefaults !! name
  end.

Definition IsSet (c : Context) (name : string) : bool :=
  bool_decide (is_Some (c !! name)).

Definition String (c : Context) (name : string) : string :=
  match flagValue c name with Some (VString s) => s | _ => "" end.

Definition Bool (c : Context) (name : string) : bool :=
  match flagValue c name with Some (VBool b) => b | _ => false end.

Definition Uint (c : Context) (name : string) : N :=
  match flagValue c name with Some (VUint n) => n | _ => 0 end.

Definition StringSlice (c : Context) (name : string) : list string :=
  match flagValue c name with Some (VSlice l) => l | _ => [] end.
End cli.

(** Integer conversions of Go. *)
Definition uint16 (n : N) : N := n mod 2 ^ 16.
Definition uint64 (n : N) : N := n mod 2 ^ 64.

(** [int64(u)] of an unsigned [u]: two's complement on 64 bits. *)
Definition int64 (n : N) : Z :=
  let m := (Z.of_N n mod 2 ^ 64)%Z in
  if (m <? 2 ^ 63)%Z then m else (m - 2 ^ 64)%Z.

(** [Int64] of a [big.Int]: the low 64 bits of the magnitude as an [int64],
    negated for a negative number. *)
Definition bigInt64 (z : Z) : Z :=
  let v := int64 (Z.to_N (Z.abs z)) in
  if (z <? 0)%Z then int64 (Z.to_N ((- v) mod 2 ^ 64)%Z) else v.

(** ** Results, traces and the state-and-error monad *)

(** How a Go call ends: a value, a non-nil [error], or a run-time panic. *)
Inductive Res (A : Type) : Type :=
| Ok (a : A)
| Err (e : Error)
| Panic.
Arguments Ok {A} a.
Arguments Err {A} e.
Arguments Panic {A}.

(** A computation over a state [S]; an error or a panic ends it and keeps
    the state reached so far. *)
Definition M (S A : Type) : Type := S -> Res A * S.

Definition ret {S A : Type} (a : A) : M S A := fun s => (Ok a, s).

Definition bind {S A B : Type} (m : M S A) (k : A -> M S B) : M S B :=
  fun s =>
    match m s with
    | (Ok a, s') => k a s'
    | (Err e, s') => (Err e, s')
    | (Panic, s') => (Panic, s')
    end.

Definition fail {S A : Type} (e : Error) : M S A := fun s => (Err e, s).

Definition panic {S A : Type} : M S A := fun s => (Panic, s).

#[export] Instance M_ret {S : Type} : MRet (M S) := @ret S.
#[export] Instance M_bind {S : Type} : MBind (M S) :=
  fun A B k m => bind m k.

(** [if err != nil { return err }] after a call that returns only an error. *)
Definition check {S : Type} (r : option Error) : M S unit :=
  match r with
  | None => ret tt
  | Some e => fail e
  end.

(** The same after a call that returns a value and an error. *)
Definition try {S A : Type} (r : Error + A) : M S A :=
  match r with
  | inr a => ret a
  | inl e => fail e
  end.

(** [defer f()]: [f] runs when the rest of the body, [m], returns, with an
    error or without; a panic of [m] is passed on after [f] has run. *)
Definition defer {S A : Type} (f : S -> S) (m : M S A) : M S A :=
  fun s => let '(r, s') := m s in (r, f s').

(** ** Types of the other packages *)

(** [ethcommon.Address], 20 bytes, and [ethcommon.Hash], 32 bytes, read as
    big-endian numbers; the zero value of both is 0. *)
Definition Address : Type := N.
Definition Hash : Type := N.
Definition zeroAddress : Address := 0.
Definition zeroHash : Hash := 0.

Inductive EthClient := MkEthClient (id : N).
Inductive Host := MkHost (id : N).
Inductive Database := MkDatabase (id : N).
Inductive RPCServer := MkRPCServer (id : N).
Inductive SwapManager := MkSwapManager (id : N).
Inductive PrivateKey := MkPrivateKey (id : N).
Inductive SwapContract := MkSwapContract (id : N).
Inductive XMRMakerInstance := MkXMRMakerInstance (id : N).

Module common.
Record Config := {
  DataDir : string;
  Bootnodes : list string;
  ContractAddress : Address;
  MoneroDaemonHost : string;
  MoneroDaemonPort : N
}.
End common.

Module monero.
(** The calls of [monero.Client] made by the XMRTaker instance. *)
Inductive Call :=
| OpenWallet (file password : string)
| CreateWallet (name password : string)
| GetAddress (idx : N)
| CloseWallet.

(** The [monero.Client] interface: what each call returns.
    [GetAddress] returns the [Address] field of the response. *)
Record Client := {
  openWallet : string -> string -> option Error;
  createWallet : string -> string -> option Error;
  getAddress : N -> Error + string;
  closeWallet : option Error
}.

Record WalletClientConf := {
  Env : Environment;
  WalletFilePath : string;
  MonerodPort : N;
  MonerodHost : string;
  MoneroWalletRPCPath : string;
  WalletPassword : string;
  WalletPort : N
}.

Inductive WalletClient := MkWalletClient (id : N).
End monero.

Module backend.
(** [backend.Backend] embeds [monero.Client]. *)
Record Backend := {
  id : N;
  client : monero.Client
}.

Record Config := {
  MoneroClient : monero.WalletClient;
  EthereumClient : EthClient;
  EthereumPrivateKey : option PrivateKey;
  Environment_ : Environment;
  GasPrice : option Z;
  GasLimit : N;
  SwapManager_ : SwapManager;
  SwapContract_ : SwapContract;
  SwapContractAddress : Address;
  Net : Host
}.
End backend.

(** ** Package xmrtaker *)

Module xmrtaker.

Definition swapDepositWallet := "swap-deposit-wallet".

(** The state of an ongoing swap lives in another file of the package;
    here it is a handle. *)
Inductive swapState := MkSwapState (id : N).

Record Instance := {
  backend : backend.Backend;
  basepath : string;
  walletFile : string;
  walletPassword : string;
  walletAddress : string;
  transferBack : bool;
  (** [sync.Mutex]: [true] while held. *)
  swapMu : bool;
  (** [None] is the nil pointer: no swap is happening. *)
  swapState_ : option swapState
}.

Record Config := {
  Backend : backend.Backend;
  Basepath : string;
  MoneroWalletFile : string;
  MoneroWalletPassword : string;
  TransferBack : bool
}.

(** The state of the functions of this package that talk to the wallet
    is the list of the calls made so far, oldest first. *)
Definition wcall {A : Type} (c : monero.Call) (r : A)
  : M (list monero.Call) A :=
  fun tr => (Ok r, (tr ++ [c])%list).

Definition getAddress (walletClient : monero.Client)
    (file password : string) : M (list monero.Call) string :=
  (if bool_decide (file ≠ "") then
     r ← wcall (monero.OpenWallet file password)
               (monero.openWallet walletClient file password);
     check r
   else
     err ← wcall (monero.CreateWallet swapDepositWallet "")
                 (monero.createWallet walletClient swapDepositWallet "");
     match err with
     | Some _ =>
         r ← wcall (monero.OpenWallet swapDepositWallet "")
                   (monero.openWallet walletClient swapDepositWallet "");
         match r with
         | Some e => fail (ErrCreateOrOpenDepositWallet e)
         | None => mret tt
         end
     | None => mret tt
     end);;
  r ← wcall (monero.GetAddress 0) (monero.getAddress walletClient 0);
  match r with
  | inl e => fail (ErrGetWalletAddress e)
  | inr address =>
      err ← wcall monero.CloseWallet (monero.closeWallet walletClient);
      match err with
      | Some e => fail (ErrCloseWallet e)
      | None => mret address
      end
  end.

(** The composite literal that [NewInstance] returns names five fields;
    [transferBack], [swapMu] and [swapState] keep their zero values. *)
Definition NewInstance (cfg : Config) : M (list monero.Call) Instance :=
  address ← (if TransferBack cfg then
               getAddress (backend.client (Backend cfg))
                          (MoneroWalletFile cfg) (MoneroWalletPassword cfg)
             else mret "");
  mret {| backend := Backend cfg;
          basepath := Basepath cfg;
          walletFile := MoneroWalletFile cfg;
          walletPassword := MoneroWalletPassword cfg;
          walletAddress := address;
          transferBack := false;
          swapMu := false;
          swapState_ := None |}.

Definition Lock (a : Instance) : Instance :=
  {| backend := backend a; basepath := basepath a;
     walletFile := walletFile a; walletPassword := walletPassword a;
     walletAddress := walletAddress a; transferBack := transferBack a;
     swapMu := true; swapState_ := swapState_ a |}.

Definition Unlock (a : Instance) : Instance :=
  {| backend := backend a; basepath := basepath a;
     walletFile := walletFile a; walletPassword := walletPassword a;
     walletAddress := walletAddress a; transferBack := transferBack a;
     swapMu := false; swapState_ := swapState_ a |}.

Section Refund.
(** [swapState.doRefund] is in another file of the package: it is a
    parameter here.  From the swap state and the instance it gives the
    backend and chain operations it performed, the instance after
    them, and its two results. *)
Variable Op : Type.
Variable doRefund :
  swapState -> Instance -> list Op * Instance * (Hash * option Error).

(** [Refund] gives the operations performed, the instance afterwards
    and the two results; [None] when [a.swapMu.Lock()] finds the mutex
    held, where the call waits. *)
Definition Refund (a : Instance)
  : option (list Op * Instance * (Hash * option Error)) :=
  if swapMu a then None
  else
    let a := Lock a in
    match swapState_ a with
    | None => Some ([], Unlock a, (zeroHash, Some errNoOngoingSwap))
    | Some s =>
        let '(ops, a', r) := doRefund s a in
        Some (ops, Unlock a', r)
    end.

Definition GetOngoingSwapState (a : Instance) : option swapState :=
  swapState_ a.
End Refund.

End xmrtaker.

(** ** Package main: types *)

Module net.
Record Config := {
  Environment_ : Environment;
  DataDir : string;
  EthChainID : Z;
  Port : N;
  KeyFile : string;
  Bootnodes : list string
}.
End net.

Module xmrmaker.
Record Config := {
  Backend : backend.Backend;
  DataDir : string;
  Database_ : Database;
  WalletFile : string;
  WalletPassword : string;
  Network : Host
}.
End xmrmaker.

Module rpc.
Record Config := {
  Address_ : string;
  Net : Host;
  XMRTaker : xmrtaker.Instance;
  XMRMaker : XMRMakerInstance;
  ProtocolBackend : backend.Backend
}.
End rpc.

(** The fields of [daemon] that [make] fills in; [None] is nil.  [host] is
    an interface value, [database] and [rpcServer] are pointers. *)
Record daemon := {
  database : option Database;
  host : option Host;
  rpcServer : option RPCServer
}.

Inductive LogLevel := LError | LWarn | LInfo.

(** What a method call on a component of the daemon does: it returns its
    [error], or it panics. *)
Inductive Outcome :=
| Returns (err : option Error)
| Panics.

(** One event for every call that leaves the two files, with its
    arguments. *)
Inductive Event :=
| EvSetLogLevel (logger level : string)
| EvMakeDir (dir : string)
| EvDial (endpoint : string)
| EvChainID (ec : EthClient)
| EvNewHost (cfg : net.Config)
| EvNewDatabase (dataDir : string)
| EvNewManager
| EvGetEthereumPrivateKey (file : string) (env : Environment)
    (devXMRMaker devXMRTaker : bool)
| EvGetOrDeploySwapFactory (addr : Address) (env : Environment)
    (dataDir : string) (key : option PrivateKey) (ec : EthClient)
| EvNewWalletClient (conf : monero.WalletClientConf)
| EvNewBackend (cfg : backend.Config)
| EvWalletClientClose (mc : monero.WalletClient)
| EvBackendClose (b : backend.Backend)
| EvXMRTakerNewInstance (cfg : xmrtaker.Config)
| EvWallet (call : monero.Call)
| EvXMRMakerNewInstance (cfg : xmrmaker.Config)
| EvSetHandler (h : Host) (b : XMRMakerInstance)
| EvHostStart (h : Host)
| EvNewServer (cfg : rpc.Config)
| EvServerStart (s : RPCServer)
| EvLog (level : LogLevel) (format : string) (err : option Error)
| EvCancel
| EvWait
| EvDatabaseClose (d : option Database)
| EvHostStop (h : Host)
| EvServerStop (s : option RPCServer).

(** The results of the calls into the other packages, and the values of
    their constants.  A method with a pointer receiver can be called on a
    nil pointer ([database_Close None], [server_Stop None]): what it does
    then is decided by its body, which is in the other package. *)
Record Externals := {
  GetEnvironment : string -> Error + (Environment * common.Config);
  MakeDir : string -> option Error;
  LibP2PKeyFile : common.Config -> string;
  EthKeyFileName : common.Config -> string;
  MoneroWalletPath : common.Config -> string;
  DefaultEthEndpoint : string;
  defaultXMRMakerDataDir : string;
  defaultXMRTakerDataDir : string;
  TrimSpace : string -> string;
  path_Join : string -> string -> string;
  Dial : string -> Error + EthClient;
  ChainID : EthClient -> Error + Z;
  NewHost : net.Config -> Error + Host;
  NewDatabase : string -> Error + Database;
  NewManager : SwapManager;
  GetEthereumPrivateKey :
    string -> Environment -> bool -> bool -> Error + PrivateKey;
  IsHexAddress : string -> bool;
  HexToAddress : string -> Address;
  getOrDeploySwapFactory :
    Address -> Environment -> string -> option PrivateKey -> EthClient ->
    Error + (SwapContract * Address);
  NewWalletClient : monero.WalletClientConf -> Error + monero.WalletClient;
  NewBackend : backend.Config -> Error + backend.Backend;
  xmrmaker_NewInstance : xmrmaker.Config -> Error + XMRMakerInstance;
  host_Start : Host -> option Error;
  NewServer : rpc.Config -> Error + RPCServer;
  server_Start : RPCServer -> option Error;
  database_Close : option Database -> Outcome;
  host_Stop : Host -> Outcome;
  server_Stop : option RPCServer -> Outcome
}.

(** The state of package main: the trace, oldest event first, and the
    daemon [d]. *)
Record World := {
  events : list Event;
  dmn : daemon
}.

Definition emit (e : Event) : M World unit :=
  fun w => (Ok tt, {| events := (events w ++ [e])%list; dmn := dmn w |}).

(** A call into another package: it is recorded and gives its result. *)
Definition call {A : Type} (e : Event) (r : A) : M World A :=
  emit e;; mret r.

Definition getDaemon : M World daemon := fun w => (Ok (dmn w), w).

Definition setDaemon (d : daemon) : M World unit :=
  fun w => (Ok tt, {| events := events w; dmn := d |}).

Definition setHost (h : Host) : M World unit :=
  d ← getDaemon;
  setDaemon {| database := database d; host := Some h;
               rpcServer := rpcServer d |}.

Definition setDatabase (db : Database) : M World unit :=
  d ← getDaemon;
  setDaemon {| database := Some db; host := host d;
               rpcServer := rpcServer d |}.

Definition setRPCServer (s : RPCServer) : M World unit :=
  d ← getDaemon;
  setDaemon {| database := database d; host := host d;
               rpcServer := Some s |}.

(** The wallet calls of package xmrtaker, as events of package main. *)
Definition liftWallet {A : Type} (m : M (list monero.Call) A) : M World A :=
  fun w =>
    let '(r, tr) := m [] in
    (r, {| events := (events w ++ map EvWallet tr)%list; dmn := dmn w |}).

Definition setDataDir (cfg : common.Config) (dir : string) : common.Config :=
  {| common.DataDir := dir;
     common.Bootnodes := common.Bootnodes cfg;
     common.ContractAddress := common.ContractAddress cfg;
     common.MoneroDaemonHost := common.MoneroDaemonHost cfg;
     common.MoneroDaemonPort := common.MoneroDaemonPort cfg |}.

Definition setBootnodes (cfg : common.Config) (l : list string)
  : common.Config :=
  {| common.DataDir := common.DataDir cfg;
     common.Bootnodes := l;
     common.ContractAddress := common.ContractAddress cfg;
     common.MoneroDaemonHost := common.MoneroDaemonHost cfg;
     common.MoneroDaemonPort := common.MoneroDaemonPort cfg |}.

Definition setContractAddress (cfg : common.Config) (a : Address)
  : common.Config :=
  {| common.DataDir := common.DataDir cfg;
     common.Bootnodes := common.Bootnodes cfg;
     common.ContractAddress := a;
     common.MoneroDaemonHost := common.MoneroDaemonHost cfg;
     common.MoneroDaemonPort := common.MoneroDaemonPort cfg |}.

Definition setMoneroDaemonHost (cfg : common.Config) (h : string)
  : common.Config :=
  {| common.DataDir := common.DataDir cfg;
     common.Bootnodes := common.Bootnodes cfg;
     common.ContractAddress := common.ContractAddress cfg;
     common.MoneroDaemonHost := h;
     common.MoneroDaemonPort := common.MoneroDaemonPort cfg |}.

Definition setMoneroDaemonPort (cfg : common.Config) (p : N)
  : common.Config :=
  {| common.DataDir := common.DataDir cfg;
     common.Bootnodes := common.Bootnodes cfg;
     common.ContractAddress := common.ContractAddress cfg;
     common.MoneroDaemonHost := common.MoneroDaemonHost cfg;
     common.MoneroDaemonPort := p |}.

(** ** Package main: functions *)

Definition levelError := "error".
Definition levelWarn := "warn".
Definition levelInfo := "info".
Definition levelDebug := "debug".

Definition setLogLevels (level : string) : M World unit :=
  emit (EvSetLogLevel "xmrtaker" level);;
  emit (EvSetLogLevel "xmrmaker" level);;
  emit (EvSetLogLevel "common" level);;
  emit (EvSetLogLevel "cmd" level);;
  emit (EvSetLogLevel "net" level);;
  emit (EvSetLogLevel "offers" level);;
  emit (EvSetLogLevel "rpc" level);;
  emit (EvSetLogLevel "monero" level).

Definition setLogLevelsFromContext (c : Context) : M World unit :=
  let level := cli.String c flagLogLevel in
  if bool_decide (level ∈ [levelError; levelWarn; levelInfo; levelDebug])
  then setLogLevels level
  else fail (ErrInvalidLogLevel level).

(** A method call on a component: recorded, then its outcome. *)
Definition invoke (e : Event) (o : Outcome) : M World unit :=
  emit e;;
  match o with
  | Returns None => mret tt
  | Returns (Some err) => fail err
  | Panics => panic
  end.

(** [d.host] is an interface value: a method call on nil panics before
    any method runs. *)
Definition stop (X : Externals) : M World unit :=
  d ← getDaemon;
  invoke (EvDatabaseClose (database d)) (database_Close X (database d));;
  match host d with
  | None => panic
  | Some h => invoke (EvHostStop h) (host_Stop X h)
  end;;
  invoke (EvServerStop (rpcServer d)) (server_Stop X (rpcServer d)).

(** [strings.Split s ","]. *)
Fixpoint splitComma (s : string) : list string :=
  match s with
  | EmptyString => [""]
  | String ch rest =>
      if Ascii.eqb ch (Ascii.ascii_of_nat 44) then "" :: splitComma rest
      else
        match splitComma rest with
        | hd :: tl => String ch hd :: tl
        | [] => [String ch ""]
        end
  end.

Definition expandBootnodes (X : Externals) (nodesCLI : list string)
  : list string :=
  flat_map (fun n => map (TrimSpace X) (splitComma n)) nodesCLI.

Definition newBackend (X : Externals) (c : Context) (env : Environment)
    (cfg : common.Config) (devXMRMaker devXMRTaker : bool)
    (sm : SwapManager) (net : Host) (ec : EthClient)
  : M World backend.Backend :=
  let useExternalSigner := cli.Bool c flagUseExternalSigner in
  if useExternalSigner && cli.IsSet c flagEthereumPrivKey then
    fail (errFlagsMutuallyExclusive flagUseExternalSigner flagEthereumPrivKey)
  else
  ethPrivKey ←
    (if negb useExternalSigner then
       ethPrivKeyFile ←
         (if cli.IsSet c flagEthereumPrivKey then
            let ethPrivKeyFile := cli.String c flagEthereumPrivKey in
            if bool_decide (ethPrivKeyFile = "") then
              fail (errFlagValueEmpty flagEthereumPrivKey)
            else mret ethPrivKeyFile
          else mret (EthKeyFileName X cfg));
       r ← call (EvGetEthereumPrivateKey ethPrivKeyFile env
                   devXMRMaker devXMRTaker)
                (GetEthereumPrivateKey X ethPrivKeyFile env
                   devXMRMaker devXMRTaker);
       key ← try r;
       mret (Some key)
     else mret None);
  let gasPrice :=
    if bool_decide (cli.Uint c flagGasPrice ≠ 0)
    then Some (int64 (cli.Uint c flagGasPrice)) else None in
  let deploy := cli.Bool c flagDeploy in
  cfg ←
    (if deploy then
       if cli.IsSet c flagContractAddress then
         fail (errFlagsMutuallyExclusive flagDeploy flagContractAddress)
       else mret (setContractAddress cfg zeroAddress)
     else
       let contractAddrStr := cli.String c flagContractAddress in
       cfg ←
         (if bool_decide (contractAddrStr ≠ "") then
            if negb (IsHexAddress X contractAddrStr) then
              fail (ErrNotValidContractAddress contractAddrStr)
            else
              mret (setContractAddress cfg (HexToAddress X contractAddrStr))
          else mret cfg);
       if bool_decide (common.ContractAddress cfg = zeroAddress) then
         fail (ErrDeployOrAddressRequired flagDeploy flagContractAddress env)
       else mret cfg);
  r ← call (EvGetOrDeploySwapFactory (common.ContractAddress cfg) env
              (common.DataDir cfg) ethPrivKey ec)
           (getOrDeploySwapFactory X (common.ContractAddress cfg) env
              (common.DataDir cfg) ethPrivKey ec);
  '(contract, contractAddr) ← try r;
  cfg ←
    (if cli.IsSet c flagMoneroDaemonHost then
       let cfg := setMoneroDaemonHost cfg (cli.String c flagMoneroDaemonHost) in
       if bool_decide (common.MoneroDaemonHost cfg = "") then
         fail (errFlagValueEmpty flagMoneroDaemonHost)
       else mret cfg
     else mret cfg);
  let cfg :=
    if cli.IsSet c flagMoneroDaemonPort
    then setMoneroDaemonPort cfg (cli.Uint c flagMoneroDaemonPort)
    else cfg in
  walletFilePath ←
    (if cli.IsSet c flagMoneroWalletPath then
       let walletFilePath := cli.String c flagMoneroWalletPath in
       if bool_decide (walletFilePath = "") then
         fail (errFlagValueEmpty flagMoneroWalletPath)
       else mret walletFilePath
     else mret (MoneroWalletPath X cfg));
  let conf :=
    {| monero.Env := env;
       monero.WalletFilePath := walletFilePath;
       monero.MonerodPort := common.MoneroDaemonPort cfg;
       monero.MonerodHost := common.MoneroDaemonHost cfg;
       monero.MoneroWalletRPCPath := "";
       monero.WalletPassword := cli.String c flagMoneroWalletPassword;
       monero.WalletPort := cli.Uint c flagMoneroWalletPort |} in
  r ← call (EvNewWalletClient conf) (NewWalletClient X conf);
  mc ← try r;
  let bcfg :=
    {| backend.MoneroClient := mc;
       backend.EthereumClient := ec;
       backend.EthereumPrivateKey := ethPrivKey;
       backend.Environment_ := env;
       backend.GasPrice := gasPrice;
       backend.GasLimit := uint64 (cli.Uint c flagGasLimit);
       backend.SwapManager_ := sm;
       backend.SwapContract_ := contract;
       backend.SwapContractAddress := contractAddr;
       backend.Net := net |} in
  r ← call (EvNewBackend bcfg) (NewBackend X bcfg);
  match r with
  | inl err =>
      emit (EvWalletClientClose mc);;
      fail (ErrFailedToMakeBackend err)
  | inr b => mret b
  end.

(** [main.go] names the second field of [xmrtaker.Config] [DataDir]; the
    XMRTaker file declares it as [Basepath]. *)
Definition getProtocolInstances (X : Externals) (c : Context)
    (cfg : common.Config) (b : backend.Backend) (db : Database)
    (host : Host) : M World (xmrtaker.Instance * XMRMakerInstance) :=
  walletFilePath ←
    (if cli.IsSet c flagMoneroWalletPath then
       let walletFilePath := cli.String c flagMoneroWalletPath in
       if bool_decide (walletFilePath = "") then
         fail (errFlagValueEmpty flagMoneroWalletPath)
       else mret walletFilePath
     else mret (MoneroWalletPath X cfg));
  let walletPassword := cli.String c flagMoneroWalletPassword in
  let xmrtakerCfg :=
    {| xmrtaker.Backend := b;
       xmrtaker.Basepath := common.DataDir cfg;
       xmrtaker.MoneroWalletFile := walletFilePath;
       xmrtaker.MoneroWalletPassword := walletPassword;
       xmrtaker.TransferBack := cli.Bool c flagTransferBack |} in
  emit (EvXMRTakerNewInstance xmrtakerCfg);;
  xmrtaker ← liftWallet (xmrtaker.NewInstance xmrtakerCfg);
  let xmrmakerCfg :=
    {| xmrmaker.Backend := b;
       xmrmaker.DataDir := common.DataDir cfg;
       xmrmaker.Database_ := db;
       xmrmaker.WalletFile := walletFilePath;
       xmrmaker.WalletPassword := walletPassword;
       xmrmaker.Network := host |} in
  r ← call (EvXMRMakerNewInstance xmrmakerCfg)
           (xmrmaker_NewInstance X xmrmakerCfg);
  xmrmaker ← try r;
  mret (xmrtaker, xmrmaker).

Definition isDevelopment (env : Environment) : bool :=
  match env with Development => true | _ => false end.

(** [d.make]: the context [d.ctx] is the root context of [runDaemon]; the
    fields of [d] are written as soon as the source assigns them, and stay
    written when a later step returns an error. *)
Definition make (X : Externals) (c : Context) : M World unit :=
  '(env, cfg) ← try (GetEnvironment X (cli.String c flagEnv));
  let devXMRMaker := cli.Bool c flagDevXMRMaker in
  let devXMRTaker := cli.Bool c flagDevXMRTaker in
  if devXMRMaker && devXMRTaker then
    fail (errFlagsMutuallyExclusive flagDevXMRMaker flagDevXMRTaker)
  else
  cfg ←
    (if cli.IsSet c flagDataDir then
       let cfg := setDataDir cfg (cli.String c flagDataDir) in
       if bool_decide (common.DataDir cfg = "") then
         fail (errFlagValueEmpty flagDataDir)
       else mret cfg
     else if isDevelopment env then
       mret (if devXMRTaker then setDataDir cfg (defaultXMRTakerDataDir X)
             else if devXMRMaker then
               setDataDir cfg (defaultXMRMakerDataDir X)
             else cfg)
     else mret cfg);
  err ← call (EvMakeDir (common.DataDir cfg)) (MakeDir X (common.DataDir cfg));
  check err;;
  let cfg :=
    if bool_decide (0 < length (cli.StringSlice c flagBootnodes))%nat
    then setBootnodes cfg (expandBootnodes X (cli.StringSlice c flagBootnodes))
    else cfg in
  libp2pKey ←
    (if cli.IsSet c flagLibp2pKey then
       let libp2pKey := cli.String c flagLibp2pKey in
       if bool_decide (libp2pKey = "") then
         fail (errFlagValueEmpty flagLibp2pKey)
       else mret libp2pKey
     else mret (LibP2PKeyFile X cfg));
  let libp2pPort :=
    if negb (cli.IsSet c flagLibp2pPort) then
      if devXMRTaker then defaultXMRTakerLibp2pPort
      else if devXMRMaker then defaultXMRMakerLibp2pPort
      else uint16 (cli.Uint c flagLibp2pPort)
    else uint16 (cli.Uint c flagLibp2pPort) in
  let ethEndpoint :=
    if bool_decide (cli.String c flagEthereumEndpoint ≠ "")
    then cli.String c flagEthereumEndpoint
    else DefaultEthEndpoint X in
  r ← call (EvDial ethEndpoint) (Dial X ethEndpoint);
  ec ← try r;
  r ← call (EvChainID ec) (ChainID X ec);
  chainID ← try r;
  let netCfg :=
    {| net.Environment_ := env;
       net.DataDir := common.DataDir cfg;
       net.EthChainID := bigInt64 chainID;
       net.Port := libp2pPort;
       net.KeyFile := libp2pKey;
       net.Bootnodes := common.Bootnodes cfg |} in
  r ← call (EvNewHost netCfg) (NewHost X netCfg);
  host ← try r;
  setHost host;;
  let dbDir := path_Join X (common.DataDir cfg) "db" in
  r ← call (EvNewDatabase dbDir) (NewDatabase X dbDir);
  db ← try r;
  setDatabase db;;
  sm ← call EvNewManager (NewManager X);
  backend ← newBackend X c env cfg devXMRMaker devXMRTaker sm host ec;
  defer (fun w => snd (emit (EvBackendClose backend) w))
    (emit (EvLog LInfo
       "created backend with monero endpoint %s and ethereum endpoint %s"
       None);;
     '(a, b) ← getProtocolInstances X c cfg backend db host;
     emit (EvSetHandler host b);;
     err ← call (EvHostStart host) (host_Start X host);
     check err;;
     let rpcPort :=
       if negb (cli.IsSet c flagRPCPort) then
         if devXMRTaker then defaultXMRTakerRPCPort
         else if devXMRMaker then defaultXMRMakerRPCPort
         else uint16 (cli.Uint c flagRPCPort)
       else uint16 (cli.Uint c flagRPCPort) in
     let listenAddr := "127.0.0.1:" +:+ pretty rpcPort in
     let rpcCfg :=
       {| rpc.Address_ := listenAddr;
          rpc.Net := host;
          rpc.XMRTaker := a;
          rpc.XMRMaker := b;
          rpc.ProtocolBackend := backend |} in
     r ← call (EvNewServer rpcCfg) (NewServer X rpcCfg);
     s ← try r;
     setRPCServer s;;
     emit (EvLog LInfo "starting swapd with data-dir %s" None);;
     err ← call (EvServerStart s) (server_Start X s);
     match err with
     | Some e => if negb (isServerClosed e) then fail e else mret tt
     | None => mret tt
     end).

Definition newDaemon : daemon :=
  {| database := None; host := None; rpcServer := None |}.

(** The body of the goroutine that [runDaemon] starts. *)
Definition goMake (X : Externals) (c : Context) : M World unit :=
  fun w =>
    match make X c w with
    | (Err err, w') =>
        (emit (EvLog LError "failed to make daemon: %s" (Some err));;
         emit EvCancel) w'
    | r => r
    end.

(** [err := d.stop()] and the warning logged when [err] is not nil. *)
Definition stopAndWarn (X : Externals) : M World unit :=
  fun w =>
    match stop X w with
    | (Err err, w') =>
        emit (EvLog LWarn "failed to gracefully stop daemon: %s" (Some err)) w'
    | r => r
    end.

(** [runDaemon]: [Ok tt] is [return nil].  [d.make] runs in a goroutine of
    its own and [d.wait], which is in another file, returns when the root
    context is cancelled or the process is told to end; the model takes
    the schedule in which [d.make] has returned (an error, or from
    [s.Start]) by the time [d.wait] returns. *)
Definition runDaemon (X : Externals) (c : Context) : M World unit :=
  setLogLevelsFromContext c;;
  defer (fun w => snd (emit EvCancel w))
    (setDaemon newDaemon;;
     goMake X c;;
     emit EvWait;;
     stopAndWarn X;;
     mret tt).

(** The state in which [main] calls [app.Run]. *)
Definition initialWorld : World := {| events := []; dmn := newDaemon |}.

(** How the process ends: [main] returns, [log.Fatal] ends it after
    logging the error that [app.Run] returned, or a panic that nothing
    recovers ends it. *)
Inductive Exit :=
| ExitSuccess
| ExitFatal (err : Error)
| ExitPanic.

(** [main]: [app.Run] calls the action of the application, [runDaemon],
    on the context parsed from [os.Args], and returns its error. *)
Definition main (X : Externals) (c : Context) : Exit :=
  match runDaemon X c initialWorld with
  | (Ok _, _) => ExitSuccess
  | (Err err, _) => ExitFatal err
  | (Panic, _) => ExitPanic
  end.

(** ** A concrete instance of the other packages

    The theorems below hold for every [Externals]; the instance of this
    section is the one at which they are applied to concrete command
    lines. *)

Module ethcommon.
(** [common.IsHexAddress] and [common.HexToAddress] of go-ethereum, the
    second on the strings that the first accepts. *)
Definition hexDigit (a : Ascii.ascii) : option N :=
  let n := Ascii.N_of_ascii a in
  if (48 <=? n) && (n <=? 57) then Some (n - 48)
  else if (97 <=? n) && (n <=? 102) then Some (n - 87)
  else if (65 <=? n) && (n <=? 70) then Some (n - 55)
  else None.

Definition has0xPrefix (s : string) : bool :=
  match s with
  | String a (String b _) =>
      (Ascii.N_of_ascii a =? 48) &&
      ((Ascii.N_of_ascii b =? 120) || (Ascii.N_of_ascii b =? 88))
  | _ => false
  end.

Definition strip0x (s : string) : string :=
  if has0xPrefix s then
    match s with String _ (String _ r) => r | _ => s end
  else s.

Fixpoint isHex (s : string) : bool :=
  match s with
  | EmptyString => true
  | String a r => match hexDigit a with Some _ => isHex r | None => false end
  end.

Fixpoint hexValue (acc : N) (s : string) : N :=
  match s with
  | EmptyString => acc
  | String a r => hexValue (16 * acc + default 0 (hexDigit a)) r
  end.

Definition IsHexAddress (s : string) : bool :=
  let s := strip0x s in
  bool_decide (String.length s = 40%nat) && isHex s.

Definition HexToAddress (s : string) : Address :=
  hexValue 0 (strip0x s) mod 2 ^ 160.
End ethcommon.

Module Demo.
Definition devConfig (dir : string) (contract : Address) : common.Config :=
  {| common.DataDir := dir;
     common.Bootnodes := [];
     common.ContractAddress := contract;
     common.MoneroDaemonHost := "127.0.0.1";
     common.MoneroDaemonPort := 18081 |}.

Definition getEnvironment (name : string)
  : Error + (Environment * common.Config) :=
  if bool_decide (name = "dev") then
    inr (Development, devConfig "/home/u/.atomicswap/dev" 0)
  else if bool_decide (name = "stagenet") then
    inr (Stagenet, devConfig "/home/u/.atomicswap/stagenet" 0)
  else if bool_decide (name = "mainnet") then
    inr (Mainnet, devConfig "/home/u/.atomicswap/mainnet" 0)
  else inl (ErrExternal "unknown environment").

(** A wallet on which every call succeeds, but for [GetAddress] when
    [addrFails] is set. *)
Definition wallet (addrFails : bool) : monero.Client :=
  {| monero.openWallet := fun _ _ => None;
     monero.createWallet := fun _ _ => None;
     monero.getAddress := fun _ =>
       if addrFails then inl (ErrExternal "wallet rpc: get_address")
       else inr "4AdUndXHHZ";
     monero.closeWallet := None |}.

Definition theBackend : backend.Backend :=
  {| backend.id := 1; backend.client := wallet false |}.

(** Every call succeeds on a component that was made, the Ethereum node
    answers with [chain] as its chain id, and a method with a pointer
    receiver does [onNil] when it is called on a nil pointer. *)
Definition externals (chain : Z) (onNil : Outcome) : Externals :=
  {| GetEnvironment := getEnvironment;
     MakeDir := fun _ => None;
     LibP2PKeyFile := fun cfg => common.DataDir cfg +:+ "/net.key";
     EthKeyFileName := fun cfg => common.DataDir cfg +:+ "/eth.key";
     MoneroWalletPath := fun cfg => common.DataDir cfg +:+ "/wallet/w";
     DefaultEthEndpoint := "http://localhost:8545";
     defaultXMRMakerDataDir := "/tmp/xmrmaker-1";
     defaultXMRTakerDataDir := "/tmp/xmrtaker-1";
     TrimSpace := fun s => s;
     path_Join := fun a b => a +:+ "/" +:+ b;
     Dial := fun ep =>
       if bool_decide (ep = "http://unreachable:1")
       then inl (ErrExternal "dial: connection refused")
       else inr (MkEthClient 1);
     ChainID := fun _ => inr chain;
     NewHost := fun _ => inr (MkHost 1);
     NewDatabase := fun _ => inr (MkDatabase 1);
     NewManager := MkSwapManager 1;
     GetEthereumPrivateKey := fun _ _ _ _ => inr (MkPrivateKey 1);
     IsHexAddress := ethcommon.IsHexAddress;
     HexToAddress := ethcommon.HexToAddress;
     getOrDeploySwapFactory := fun addr _ _ _ _ =>
       inr (MkSwapContract 1, if bool_decide (addr = 0) then 4096 else addr);
     NewWalletClient := fun _ => inr (monero.MkWalletClient 1);
     NewBackend := fun _ => inr theBackend;
     xmrmaker_NewInstance := fun _ => inr (MkXMRMakerInstance 1);
     host_Start := fun _ => None;
     NewServer := fun _ => inr (MkRPCServer 1);
     server_Start := fun _ => Some ErrServerClosed;
     database_Close := fun d =>
       match d with Some _ => Returns None | None => onNil end;
     host_Stop := fun _ => Returns None;
     server_Stop := fun s =>
       match s with Some _ => Returns None | None => onNil end |}.

(** Command lines. *)
Definition deployArgs : Context := {[ flagDeploy := VBool true ]}.

Definition bothDevArgs : Context :=
  <[flagDevXMRMaker := VBool true]> {[ flagDevXMRTaker := VBool true ]}.

Definition bothDevBadEnvArgs : Context :=
  <[flagEnv := VString "testnet"]> bothDevArgs.


Definition unreachableArgs : Context :=
  <[flagEthereumEndpoint := VString "http://unreachable:1"]> deployArgs.

(** A configuration of the XMRTaker instance with the transfer-back
    option. *)
Definition transferBackConfig : xmrtaker.Config :=
  {| xmrtaker.Backend := theBackend;
     xmrtaker.Basepath := "/tmp/xmrtaker-1";
     xmrtaker.MoneroWalletFile := "deposit";
     xmrtaker.MoneroWalletPassword := "";
     xmrtaker.TransferBack := true |}.

(** An XMRTaker instance with no swap going on. *)
Definition idleInstance : xmrtaker.Instance :=
  {| xmrtaker.backend := theBackend;
     xmrtaker.basepath := "/tmp/xmrtaker-1";
     xmrtaker.walletFile := "deposit";
     xmrtaker.walletPassword := "";
     xmrtaker.walletAddress := "4AdUndXHHZ";
     xmrtaker.transferBack := false;
     xmrtaker.swapMu := false;
     xmrtaker.swapState_ := None |}.

(** A daemon whose three components are up. *)
Definition runningDaemon : World :=
  {| events := [];
     dmn := {| database := Some (MkDatabase 1);
               host := Some (MkHost 1);
               rpcServer := Some (MkRPCServer 1) |} |}.
End Demo.



(** ** Vocabulary of the properties *)

Definition addEvents (w : World) (tr : list Event) : World :=
  {| events := (events w ++ tr)%list; dmn := dmn w |}.

(** The events that a run from [w] to [w'] added. *)
Definition newEvents (w w' : World) : list Event :=
  drop (length (events w)) (events w').

(** [precedes P Q tr]: some event that satisfies [P] comes, in [tr],
    before some event that satisfies [Q]. *)
Fixpoint precedes (P Q : Event -> bool) (tr : list Event) : bool :=
  match tr with
  | [] => false
  | e :: tr' => (P e && existsb Q tr') || precedes P Q tr'
  end.

Definition isDatabaseClose (e : Event) : bool :=
  match e with EvDatabaseClose _ => true | _ => false end.
Definition isHostStop (e : Event) : bool :=
  match e with EvHostStop _ => true | _ => false end.
Definition isServerStop (e : Event) : bool :=
  match e with EvServerStop _ => true | _ => false end.
Definition isContract (e : Event) : bool :=
  match e with EvGetOrDeploySwapFactory _ _ _ _ _ => true | _ => false end.
Definition isNewWalletClient (e : Event) : bool :=
  match e with EvNewWalletClient _ => true | _ => false end.
Definition isGetKey (e : Event) : bool :=
  match e with EvGetEthereumPrivateKey _ _ _ _ => true | _ => false end.
Definition isCancel (e : Event) : bool :=
  match e with EvCancel => true | _ => false end.
Definition isBackendClose (e : Event) : bool :=
  match e with EvBackendClose _ => true | _ => false end.
Definition isWalletClose (e : Event) : bool :=
  match e with
  | EvWalletClientClose _ | EvWallet monero.CloseWallet => true
  | _ => false
  end.
Definition isErrorLog (e : Event) : bool :=
  match e with EvLog LError _ _ => true | _ => false end.

(** The order in which [stop] goes through the components of [d]. *)
Definition stopOrder (d : daemon) : list Event :=
  EvDatabaseClose (database d) ::
  match host d with
  | Some h => [EvHostStop h; EvServerStop (rpcServer d)]
  | None => []
  end.

(** What [stop] gives when a call is the last one it makes: the error that
    the call returned, nil, or the panic of the call. *)
Definition outcomeResult (o : Outcome) : Res unit :=
  match o with
  | Returns None => Ok tt
  | Returns (Some err) => Err err
  | Panics => Panic
  end.




(** The file from which [newBackend] loads the Ethereum key. *)
Definition ethKeyFile (X : Externals) (c : Context) (cfg : common.Config)
  : string :=
  if cli.IsSet c flagEthereumPrivKey then cli.String c flagEthereumPrivKey
  else EthKeyFileName X cfg.

(** The part of [newBackend] that comes before the contract went
    through: either the signer is external and no key file is given, or
    the key was loaded from its file.  The second index is what that part
    added to the trace. *)
Inductive signerReady (X : Externals) (c : Context) (env : Environment)
    (cfg : common.Config) (dm dt : bool)
  : option PrivateKey -> list Event -> Prop :=
| externalSigner :
    cli.Bool c flagUseExternalSigner = true ->
    cli.IsSet c flagEthereumPrivKey = false ->
    signerReady X c env cfg dm dt None []
| keyLoaded key :
    cli.Bool c flagUseExternalSigner = false ->
    (cli.IsSet c flagEthereumPrivKey = true ->
     cli.String c flagEthereumPrivKey <> "") ->
    GetEthereumPrivateKey X (ethKeyFile X c cfg) env dm dt = inr key ->
    signerReady X c env cfg dm dt (Some key)
      [EvGetEthereumPrivateKey (ethKeyFile X c cfg) env dm dt].

(** The claim's "valid non-zero hex contract address is configured":
    the address of the [contract-address] flag when the flag has a value,
    which must then be a hex address, and the address of the
    configuration otherwise; in both cases not the zero address. *)
Definition configuredContract (X : Externals) (c : Context)
    (cfg : common.Config) : option Address :=
  let s := cli.String c flagContractAddress in
  let a :=
    if bool_decide (s = "") then Some (common.ContractAddress cfg)
    else if IsHexAddress X s then Some (HexToAddress X s)
    else None in
  match a with
  | Some a => if bool_decide (a = zeroAddress) then None else Some a
  | None => None
  end.


(** ** Vocabulary of the further properties *)

(** The number of commas of a string. *)
Fixpoint countCommas (s : string) : nat :=
  match s with
  | EmptyString => 0%nat
  | String ch rest =>
      if Ascii.eqb ch (Ascii.ascii_of_nat 44) then S (countCommas rest)
      else countCommas rest
  end.


(** The configurations with which a trace makes a network host, opens a
    database and makes an RPC server. *)
Definition hostConfigs (tr : list Event) : list net.Config :=
  omap (fun e => match e with EvNewHost cfg => Some cfg | _ => None end) tr.

Definition databaseDirs (tr : list Event) : list string :=
  omap (fun e => match e with EvNewDatabase dir => Some dir | _ => None end)
    tr.

Definition serverConfigs (tr : list Event) : list rpc.Config :=
  omap (fun e => match e with EvNewServer cfg => Some cfg | _ => None end) tr.

(** The backends that the calls of [backend.NewBackend] in a trace
    returned, and the backends that the trace closes. *)
Definition backendsMade (X : Externals) (tr : list Event)
  : list backend.Backend :=
  omap (fun e =>
          match e with
          | EvNewBackend bcfg =>
              match NewBackend X bcfg with
              | inr b => Some b
              | inl _ => None
              end
          | _ => None
          end) tr.

Definition backendsClosed (tr : list Event) : list backend.Backend :=
  omap (fun e => match e with EvBackendClose b => Some b | _ => None end) tr.

(** The same for the wallet clients of [monero.NewWalletClient]. *)
Definition walletClientsMade (X : Externals) (tr : list Event)
  : list monero.WalletClient :=
  omap (fun e =>
          match e with
          | EvNewWalletClient conf =>
              match NewWalletClient X conf with
              | inr mc => Some mc
              | inl _ => None
              end
          | _ => None
          end) tr.

Definition walletClientsClosed (tr : list Event)
  : list monero.WalletClient :=
  omap (fun e => match e with EvWalletClientClose mc => Some mc | _ => None end)
    tr.

(** The events of [newBackend] and of [getProtocolInstances]. *)
Definition isBackendPhase (e : Event) : bool :=
  match e with
  | EvGetEthereumPrivateKey _ _ _ _ | EvGetOrDeploySwapFactory _ _ _ _ _
  | EvNewWalletClient _ | EvNewBackend _ | EvWalletClientClose _ => true
  | _ => false
  end.

Definition isProtocolPhase (e : Event) : bool :=
  match e with
  | EvXMRTakerNewInstance _ | EvWallet _ | EvXMRMakerNewInstance _ => true
  | _ => false
  end.

(** The address that [newBackend] asks [getOrDeploySwapFactory] for: the
    zero address for a deployment, the configured address otherwise;
    none when the command line is rejected. *)
Definition contractChoice (X : Externals) (c : Context)
    (cfg : common.Config) : option Address :=
  if cli.Bool c flagDeploy then
    if cli.IsSet c flagContractAddress then None else Some zeroAddress
  else configuredContract X c cfg.

(** The events of a trace that set the handler of the host, start the
    host, make the RPC server and start it. *)
Definition isLifecycle (e : Event) : bool :=
  match e with
  | EvSetHandler _ _ | EvHostStart _ | EvNewServer _ | EvServerStart _ => true
  | _ => false
  end.

(** What these events must look like: any beginning of "the handler [b]
    is set on the host [h], [h] is started, the RPC server is made over
    [h] and [b], the server that was made is started". *)
Definition lifecycleInOrder (X : Externals) (l : list Event) : Prop :=
  match l with
  | [] => True
  | [EvSetHandler h b] => True
  | [EvSetHandler h b; EvHostStart h'] => h' = h
  | [EvSetHandler h b; EvHostStart h'; EvNewServer cfg] =>
      h' = h /\ rpc.Net cfg = h /\ rpc.XMRMaker cfg = b
  | [EvSetHandler h b; EvHostStart h'; EvNewServer cfg; EvServerStart s] =>
      h' = h /\ rpc.Net cfg = h /\ rpc.XMRMaker cfg = b /\
      NewServer X cfg = inr s
  | _ => False
  end.

(** * Properties *)

(** ** Symbolic execution of the monadic code

    [symex H] runs the computation on the left of the equation [H] as far
    as it is determined, and splits on every result that decides how it
    goes on: the result of a call into another package, a condition, the
    result of [newBackend] or [getProtocolInstances]. *)

Ltac head_scrut t :=
  lazymatch t with
  | match ?x with _ => _ end => head_scrut x
  | (match ?x with _ => _ end) _ => head_scrut x
  | (match ?x with _ => _ end) _ _ => head_scrut x
  | _ => t
  end.

Ltac run_simpl H :=
  cbv beta iota zeta delta
    [mbind M_bind bind mret M_ret ret fail try check call emit getDaemon
     setDaemon setHost setDatabase setRPCServer defer panic liftWallet
     setDataDir setBootnodes setContractAddress setMoneroDaemonHost
     setMoneroDaemonPort] in H;
  cbn [events dmn fst snd common.DataDir common.Bootnodes
       common.ContractAddress common.MoneroDaemonHost
       common.MoneroDaemonPort] in H.

Ltac run_step H :=
  run_simpl H;
  lazymatch type of H with
  | ?l = _ =>
      let s := head_scrut l in
      lazymatch s with
      | (_, _) => fail "done"
      | _ => destruct s eqn:?
      end
  end.

Ltac symex H := repeat run_step H; run_simpl H.

Ltac close_world :=
  unfold addEvents; cbn [events dmn]; rewrite <- ?app_assoc; cbn [app].

Ltac normal_trace :=
  unfold newEvents, addEvents; cbn [events dmn];
  rewrite <- ?app_assoc, ?drop_app_length, ?drop_all;
  repeat (progress (cbn [app]; rewrite <- ?app_assoc)).

Ltac use_equations :=
  repeat match goal with
    | E : ?x = _ |- context [match ?x with _ => _ end] => rewrite E
    end.

Section XMRTaker.
Import xmrtaker.

(** X5.  When [getAddress] returns an address, its last call was a
    [CloseWallet] that succeeded, right after [GetAddress 0]. *)
Lemma getAddress_ok_closes cl file password tr address tr' :
  getAddress cl file password tr = (Ok address, tr') ->
  monero.closeWallet cl = None /\
  monero.getAddress cl 0 = inr address /\
  exists pre,
    tr' = (tr ++ pre ++ [monero.GetAddress 0; monero.CloseWallet])%list.
Proof.
  unfold getAddress, mbind, M_bind, bind, mret, M_ret, ret, fail, check,
    wcall.
  destruct (bool_decide (file ≠ "")); cbn.
  - destruct (monero.openWallet cl file password); [discriminate|].
    destruct (monero.getAddress cl 0) as [e|a]; [discriminate|].
    destruct (monero.closeWallet cl); [discriminate|].
    intros [= <- <-]. repeat split.
    exists [monero.OpenWallet file password].
    by rewrite <- !app_assoc.
  - destruct (monero.createWallet cl swapDepositWallet ""); cbn.
    + destruct (monero.openWallet cl swapDepositWallet ""); [discriminate|].
      destruct (monero.getAddress cl 0) as [e'|a]; [discriminate|].
      destruct (monero.closeWallet cl); [discriminate|].
      intros [= <- <-]. repeat split.
      exists [monero.CreateWallet swapDepositWallet "";
              monero.OpenWallet swapDepositWallet ""].
      by rewrite <- !app_assoc.
    + destruct (monero.getAddress cl 0) as [e'|a]; [discriminate|].
      destruct (monero.closeWallet cl); [discriminate|].
      intros [= <- <-]. repeat split.
      exists [monero.CreateWallet swapDepositWallet ""].
      by rewrite <- !app_assoc.
Qed.

(** C6.  With the transfer-back option set, [NewInstance] asks the
    wallet for its address and the instance it returns carries that
    address, but its [transferBack] field is [false]: the setting of
    the configuration is not copied into the instance. *)
Theorem NewInstance_transfer_back_not_stored cfg tr inst tr' :
  TransferBack cfg = true ->
  NewInstance cfg tr = (Ok inst, tr') ->
  getAddress (backend.client (Backend cfg)) (MoneroWalletFile cfg)
    (MoneroWalletPassword cfg) tr = (Ok (walletAddress inst), tr') /\
  transferBack inst = false /\
  transferBack inst <> TransferBack cfg.
Proof.
  intros Htb. unfold NewInstance. rewrite Htb.
  unfold mbind, M_bind, bind, mret, M_ret, ret.
  destruct (getAddress _ _ _ tr) as [[a|e|] tr1]; try discriminate.
  intros [= <- <-]. by cbn.
Qed.

Lemma NewInstance_transfer_back_not_stored_witness :
  exists inst tr',
    NewInstance Demo.transferBackConfig [] = (Ok inst, tr') /\
    walletAddress inst = "4AdUndXHHZ" /\
    transferBack inst = false.
Proof.
  eexists _, _. split; [reflexivity|].
  split; [reflexivity|].
  eapply (NewInstance_transfer_back_not_stored Demo.transferBackConfig []);
    reflexivity.
Defined.

(** C8.  When the wallet was opened and [GetAddress] then fails,
    [getAddress] returns the error at once: the calls it made are
    [OpenWallet] and [GetAddress], and no [CloseWallet]. *)
Theorem getAddress_error_path_skips_close cl file password e tr :
  file <> "" ->
  monero.openWallet cl file password = None ->
  monero.getAddress cl 0 = inl e ->
  getAddress cl file password tr =
    (Err (ErrGetWalletAddress e),
     (tr ++ [monero.OpenWallet file password; monero.GetAddress 0])%list) /\
  monero.CloseWallet ∉ [monero.OpenWallet file password; monero.GetAddress 0].
Proof.
  intros Hfile Hopen Haddr. split.
  - unfold getAddress, mbind, M_bind, bind, mret, M_ret, ret, fail, check,
      wcall.
    rewrite bool_decide_eq_true_2 by done. cbn.
    rewrite Hopen, Haddr. cbn.
    by rewrite <- ?app_assoc.
  - intros Hin. repeat (apply elem_of_cons in Hin as [Hin|Hin]; [discriminate|]).
    by apply elem_of_nil in Hin.
Qed.

Lemma getAddress_error_path_skips_close_witness :
  getAddress (Demo.wallet true) "deposit" "" [] =
    (Err (ErrGetWalletAddress (ErrExternal "wallet rpc: get_address")),
     [monero.OpenWallet "deposit" ""; monero.GetAddress 0]).
Proof.
  apply (getAddress_error_path_skips_close (Demo.wallet true) "deposit" ""
           (ErrExternal "wallet rpc: get_address") []);
    [discriminate | reflexivity | reflexivity].
Defined.

(** C9.  [Refund] on an instance with no ongoing swap, its mutex free,
    returns the zero hash and [errNoOngoingSwap], performs no operation
    and leaves the instance as it was. *)
Theorem Refund_no_ongoing_swap (Op : Type)
    (doRefund : swapState -> Instance ->
                list Op * Instance * (Hash * option Error))
    (a : Instance) :
  swapState_ a = None ->
  swapMu a = false ->
  Refund Op doRefund a = Some ([], a, (zeroHash, Some errNoOngoingSwap)).
Proof.
  intros Hnil Hmu. unfold Refund. rewrite Hmu. cbn. rewrite Hnil.
  destruct a; cbn in *; by subst.
Qed.

Lemma Refund_no_ongoing_swap_witness :
  Refund nat (fun _ a => ([1%nat], a, (7, None))) Demo.idleInstance =
    Some ([], Demo.idleInstance, (zeroHash, Some errNoOngoingSwap)).
Proof.
  apply (Refund_no_ongoing_swap nat (fun _ a => ([1%nat], a, (7, None)))
           Demo.idleInstance); reflexivity.
Defined.
End XMRTaker.

(** ** Traces *)

Lemma addEvents_nil w : addEvents w [] = w.
Proof. destruct w. unfold addEvents. cbn. by rewrite app_nil_r. Qed.

Lemma addEvents_app w tr1 tr2 :
  addEvents (addEvents w tr1) tr2 = addEvents w (tr1 ++ tr2).
Proof. unfold addEvents. cbn. by rewrite app_assoc. Qed.

Lemma newEvents_addEvents w tr : newEvents w (addEvents w tr) = tr.
Proof. unfold newEvents, addEvents. cbn. by rewrite drop_app_length. Qed.

Lemma emit_run e w : emit e w = (Ok tt, addEvents w [e]).
Proof. reflexivity. Qed.

Lemma invoke_run e o w :
  invoke e o w =
    (match o with
     | Returns None => Ok tt
     | Returns (Some err) => Err err
     | Panics => Panic
     end, addEvents w [e]).
Proof. unfold invoke. by destruct o as [[?|]|]. Qed.

(** ** [stop] *)

(** [stop] as one equation: the database first, then the host, then the
    RPC server, as far as each call returns nil. *)
Lemma stop_run X w :
  stop X w =
    match database_Close X (database (dmn w)) with
    | Returns None =>
        match host (dmn w) with
        | None => (Panic, addEvents w [EvDatabaseClose (database (dmn w))])
        | Some h =>
            match host_Stop X h with
            | Returns None =>
                (match server_Stop X (rpcServer (dmn w)) with
                 | Returns None => Ok tt
                 | Returns (Some err) => Err err
                 | Panics => Panic
                 end, addEvents w (stopOrder (dmn w)))
            | Returns (Some err) =>
                (Err err,
                 addEvents w [EvDatabaseClose (database (dmn w)); EvHostStop h])
            | Panics =>
                (Panic,
                 addEvents w [EvDatabaseClose (database (dmn w)); EvHostStop h])
            end
        end
    | Returns (Some err) =>
        (Err err, addEvents w [EvDatabaseClose (database (dmn w))])
    | Panics => (Panic, addEvents w [EvDatabaseClose (database (dmn w))])
    end.
Proof.
  unfold stop, mbind, M_bind, bind, getDaemon, stopOrder.
  rewrite invoke_run.
  destruct (database_Close X (database (dmn w))) as [[e|]|]; try reflexivity.
  destruct (host (dmn w)) as [h|]; [|reflexivity].
  cbn -[invoke]. rewrite invoke_run.
  destruct (host_Stop X h) as [[e|]|]; cbn -[invoke];
    rewrite ?invoke_run, ?addEvents_app; reflexivity.
Qed.

(** [stop] on a daemon of which nothing was initialised: it calls [Close]
    on the nil database, and panics unless that call returns an error. *)
Lemma stop_nothing_initialised X w :
  dmn w = newDaemon ->
  stop X w =
    (match database_Close X None with
     | Returns (Some err) => Err err
     | _ => Panic
     end, addEvents w [EvDatabaseClose None]).
Proof.
  intros Hd. rewrite stop_run, Hd. cbn.
  by destruct (database_Close X None) as [[e|]|].
Qed.

(** C1, as the claim has it, fails: on a daemon whose three components
    are up and stop without error, the first call of [stop] closes the
    database and the last one stops the RPC server. *)
Lemma stop_closes_database_before_rpc_server :
  let r := stop (Demo.externals 1337 Panics) Demo.runningDaemon in
  r.1 = Ok tt /\
  events r.2 =
    [EvDatabaseClose (Some (MkDatabase 1)); EvHostStop (MkHost 1);
     EvServerStop (Some (MkRPCServer 1))] /\
  precedes isServerStop isHostStop (events r.2) = false /\
  precedes isHostStop isDatabaseClose (events r.2) = false.
Proof. vm_compute. repeat split. Qed.

(** C1, amended.  [stop] leaves the daemon as it is and goes through its
    components in the order database, network host, RPC server, up to the
    first call that does not return nil, and what that call returned is
    what [stop] returns: the error of [Close] after one call, the error
    of the host's [Stop] after two, the result of the server's [Stop]
    after three; a host that is nil makes [stop] panic after [Close].
    When [stop] returns nil all three calls were made.  It makes no other
    call: it cancels no swap and closes no wallet, and at no point is the
    RPC server stopped before the host, or the host before the
    database. *)
Theorem stop_order X w :
  let r := stop X w in
  let d := dmn w in
  dmn r.2 = d /\
  exists tr,
    r.2 = addEvents w tr /\
    tr `prefix_of` stopOrder d /\
    head tr = Some (EvDatabaseClose (database d)) /\
    (r.1 = Ok tt -> tr = stopOrder d /\ length tr = 3%nat) /\
    precedes isServerStop isHostStop tr = false /\
    precedes isHostStop isDatabaseClose tr = false /\
    existsb isCancel tr = false /\
    existsb isBackendClose tr = false /\
    existsb isWalletClose tr = false /\
    (database_Close X (database d) <> Returns None ->
     r.1 = outcomeResult (database_Close X (database d)) /\
     tr = [EvDatabaseClose (database d)]) /\
    (database_Close X (database d) = Returns None ->
     match host d with
     | None => r.1 = Panic /\ tr = [EvDatabaseClose (database d)]
     | Some h =>
         (host_Stop X h <> Returns None ->
          r.1 = outcomeResult (host_Stop X h) /\
          tr = [EvDatabaseClose (database d); EvHostStop h]) /\
         (host_Stop X h = Returns None ->
          r.1 = outcomeResult (server_Stop X (rpcServer d)) /\
          tr = [EvDatabaseClose (database d); EvHostStop h;
                EvServerStop (rpcServer d)])
     end).
Proof.
  cbn zeta. rewrite stop_run. unfold stopOrder.
  destruct (database_Close X (database (dmn w))) as [[e|]|];
    [ | destruct (host (dmn w)) as [h|];
        [ destruct (host_Stop X h) as [[e|]|] | ] | ];
    (split; [done|]; eexists; split; [done|]);
    repeat split; try done; try (eexists; reflexivity).
Qed.

(** ** [make]: the two development flags *)

(** C7, as the claim has it, fails: with both flags and an environment
    name that [GetEnvironment] does not know, [make] returns the error of
    [GetEnvironment], not the error about the two flags. *)
Lemma both_dev_flags_unknown_environment :
  cli.Bool Demo.bothDevBadEnvArgs flagDevXMRMaker = true /\
  cli.Bool Demo.bothDevBadEnvArgs flagDevXMRTaker = true /\
  make (Demo.externals 1337 Panics) Demo.bothDevBadEnvArgs initialWorld =
    (Err (ErrExternal "unknown environment"), initialWorld) /\
  ErrExternal "unknown environment" <>
    errFlagsMutuallyExclusive flagDevXMRMaker flagDevXMRTaker.
Proof. vm_compute. repeat split. discriminate. Qed.

(** C7, amended.  With both development flags, [make] returns an error
    and leaves the world as it found it: no call into another package was
    made and no field of the daemon was written.  The error is the one
    about the two mutually exclusive flags when the environment name
    resolves, and the error of [GetEnvironment] when it does not. *)
Theorem make_rejects_both_dev_flags X c w :
  cli.Bool c flagDevXMRMaker = true ->
  cli.Bool c flagDevXMRTaker = true ->
  make X c w =
    (Err (match GetEnvironment X (cli.String c flagEnv) with
          | inl err => err
          | inr _ => errFlagsMutuallyExclusive flagDevXMRMaker flagDevXMRTaker
          end), w).
Proof.
  intros Hmaker Htaker.
  unfold make, mbind, M_bind, bind, try, fail, ret.
  destruct (GetEnvironment X (cli.String c flagEnv)) as [err|[env cfg]];
    [reflexivity|].
  by rewrite Hmaker, Htaker.
Qed.

Lemma make_rejects_both_dev_flags_witness :
  make (Demo.externals 1337 Panics) Demo.bothDevArgs initialWorld =
    (Err (errFlagsMutuallyExclusive flagDevXMRMaker flagDevXMRTaker),
     initialWorld).
Proof.
  apply (make_rejects_both_dev_flags (Demo.externals 1337 Panics)
           Demo.bothDevArgs initialWorld); reflexivity.
Defined.

(** ** [runDaemon]: a startup that fails *)




(** C3.  The Ethereum endpoint cannot be reached: [make] returns at
    [Dial], before any field of the daemon is written, and the later
    steps are skipped.  [runDaemon] then runs [stop] all the same, and
    [stop] calls [Close] on the database that was never opened.  Unless
    that call on the nil pointer itself returns an error, the process
    panics: what [Close] does not do, the call of [Stop] on the nil host
    does. *)
Theorem failed_startup_stops_uninitialised_components
    (chain : Z) (onNil : Outcome) :
  let r := runDaemon (Demo.externals chain onNil) Demo.unreachableArgs
             initialWorld in
  dmn r.2 = newDaemon /\
  drop 8 (events r.2) =
    ([EvMakeDir "/home/u/.atomicswap/dev";
      EvDial "http://unreachable:1";
      EvLog LError "failed to make daemon: %s"
        (Some (ErrExternal "dial: connection refused"));
      EvCancel; EvWait; EvDatabaseClose None] ++
     match onNil with
     | Returns (Some err) =>
         [EvLog LWarn "failed to gracefully stop daemon: %s" (Some err)]
     | _ => []
     end ++ [EvCancel])%list /\
  r.1 = match onNil with Returns (Some _) => Ok tt | _ => Panic end.
Proof. destruct onNil as [[err|]|]; vm_compute; repeat split. Qed.

(** C10.  The log level is valid and both development flags are given:
    [make] fails, the error is logged and the context cancelled, and
    [stop] runs on a daemon of which nothing was initialised.
    [runDaemon] does not return nil then but panics, and the process
    ends with the panic, unless [Close] on the nil database returns an
    error of its own. *)
Theorem runDaemon_failed_make_panics (chain : Z) (onNil : Outcome) :
  let r := runDaemon (Demo.externals chain onNil) Demo.bothDevArgs
             initialWorld in
  cli.String Demo.bothDevArgs flagLogLevel = levelInfo /\
  existsb isErrorLog (events r.2) = true /\
  r.1 = match onNil with Returns (Some _) => Ok tt | _ => Panic end /\
  main (Demo.externals chain onNil) Demo.bothDevArgs =
    match onNil with Returns (Some _) => ExitSuccess | _ => ExitPanic end.
Proof. destruct onNil as [[err|]|]; vm_compute; repeat split. Qed.

(** ** [newBackend] and [getProtocolInstances] *)

Lemma newBackend_appends X c env cfg dm dt sm net ec w r w' :
  newBackend X c env cfg dm dt sm net ec w = (r, w') ->
  exists tr, w' = addEvents w tr.
Proof.
  intros H. unfold newBackend in H.
  symex H.
  all: injection H as <- <-.
  all: first [ by exists []; rewrite addEvents_nil
             | close_world; by eexists ].
Qed.


Lemma getProtocolInstances_appends X c cfg b db h w r w' :
  getProtocolInstances X c cfg b db h w = (r, w') ->
  exists tr, w' = addEvents w tr.
Proof.
  intros H. unfold getProtocolInstances in H.
  symex H.
  all: injection H as <- <-.
  all: first [ by exists []; rewrite addEvents_nil
             | close_world; by eexists ].
Qed.


Ltac use_appends :=
  repeat match goal with
    | Hb : newBackend _ _ _ _ _ _ _ _ _ _ = (_, _) |- _ =>
        apply newBackend_appends in Hb as [?tr ->]
    | Hg : getProtocolInstances _ _ _ _ _ _ _ = (_, _) |- _ =>
        apply getProtocolInstances_appends in Hg as [?tr ->]
    end.





(** ** [make]: the order of a startup *)




(** ** [make]: the chain id *)




(** * Further properties *)

Ltac wsimpl H :=
  cbv beta iota zeta delta
    [mbind M_bind bind mret M_ret ret fail check xmrtaker.wcall] in H.

Ltac wstep H :=
  wsimpl H;
  lazymatch type of H with
  | ?l = _ =>
      let s := head_scrut l in
      lazymatch s with
      | (_, _) => fail "done"
      | _ => destruct s eqn:?
      end
  end.

Ltac wsymex H := repeat wstep H; wsimpl H.

(** ** Package xmrtaker *)

(** X1.  Without the transfer-back option [NewInstance] makes no wallet call
    and cannot fail; the wallet address of the instance is empty. *)
Theorem NewInstance_without_transfer_back cfg tr :
  xmrtaker.TransferBack cfg = false ->
  xmrtaker.NewInstance cfg tr =
    (Ok {| xmrtaker.backend := xmrtaker.Backend cfg;
           xmrtaker.basepath := xmrtaker.Basepath cfg;
           xmrtaker.walletFile := xmrtaker.MoneroWalletFile cfg;
           xmrtaker.walletPassword := xmrtaker.MoneroWalletPassword cfg;
           xmrtaker.walletAddress := "";
           xmrtaker.transferBack := false;
           xmrtaker.swapMu := false;
           xmrtaker.swapState_ := None |}, tr).
Proof. intros Htb. unfold xmrtaker.NewInstance. by rewrite Htb. Qed.

Lemma NewInstance_without_transfer_back_witness :
  exists inst,
    xmrtaker.NewInstance
      {| xmrtaker.Backend := Demo.theBackend;
         xmrtaker.Basepath := "/tmp/xmrtaker-1";
         xmrtaker.MoneroWalletFile := "deposit";
         xmrtaker.MoneroWalletPassword := "";
         xmrtaker.TransferBack := false |} [] = (Ok inst, []) /\
    xmrtaker.walletAddress inst = "".
Proof.
  eexists. split.
  - apply (NewInstance_without_transfer_back
             {| xmrtaker.Backend := Demo.theBackend;
                xmrtaker.Basepath := "/tmp/xmrtaker-1";
                xmrtaker.MoneroWalletFile := "deposit";
                xmrtaker.MoneroWalletPassword := "";
                xmrtaker.TransferBack := false |} []).
    reflexivity.
  - reflexivity.
Defined.

(** The fields of an instance that [NewInstance] returns are those of
    the configuration. *)
Lemma NewInstance_ok_fields cfg tr inst tr' :
  xmrtaker.NewInstance cfg tr = (Ok inst, tr') ->
  xmrtaker.backend inst = xmrtaker.Backend cfg /\
  xmrtaker.basepath inst = xmrtaker.Basepath cfg /\
  xmrtaker.walletFile inst = xmrtaker.MoneroWalletFile cfg /\
  xmrtaker.walletPassword inst = xmrtaker.MoneroWalletPassword cfg /\
  xmrtaker.swapState_ inst = None /\ xmrtaker.swapMu inst = false.
Proof.
  unfold xmrtaker.NewInstance, mbind, M_bind, bind, mret, M_ret, ret.
  destruct (if xmrtaker.TransferBack cfg then _ else _) as [[a|e|] tr1];
    try discriminate.
  by intros [= <- <-].
Qed.

(** X2.  With an empty wallet file the password argument of [getAddress] is
    not used: the wallet is the deposit wallet of the package, created or
    opened with the empty password, and every call that [getAddress]
    makes is one of four. *)
Theorem getAddress_empty_file_ignores_password cl password tr :
  xmrtaker.getAddress cl "" password tr = xmrtaker.getAddress cl "" "" tr /\
  exists calls,
    (xmrtaker.getAddress cl "" password tr).2 = (tr ++ calls)%list /\
    Forall (fun call =>
              call ∈ [monero.CreateWallet xmrtaker.swapDepositWallet "";
                      monero.OpenWallet xmrtaker.swapDepositWallet "";
                      monero.GetAddress 0; monero.CloseWallet]) calls.
Proof.
  split; [reflexivity|].
  destruct (xmrtaker.getAddress cl "" password tr) as [r tr'] eqn:H.
  cbn [snd]. unfold xmrtaker.getAddress in H.
  change (bool_decide ("" ≠ "")) with false in H.
  wsymex H.
  all: injection H as <- <-.
  all: rewrite <- ?app_assoc; eexists; (split; [reflexivity|]).
  all: repeat constructor; set_solver.
Qed.

(** X3.  With a wallet file [getAddress] opens that file with the given
    password and creates no wallet: its calls are a beginning of
    [OpenWallet], [GetAddress 0], [CloseWallet]. *)
Theorem getAddress_file_opens_only_that_file cl file password tr :
  file <> "" ->
  exists calls,
    (xmrtaker.getAddress cl file password tr).2 = (tr ++ calls)%list /\
    calls `prefix_of`
      [monero.OpenWallet file password; monero.GetAddress 0;
       monero.CloseWallet] /\
    head calls = Some (monero.OpenWallet file password).
Proof.
  intros Hfile.
  destruct (xmrtaker.getAddress cl file password tr) as [r tr'] eqn:H.
  cbn [snd]. unfold xmrtaker.getAddress in H.
  rewrite bool_decide_eq_true_2 in H by done.
  wsymex H.
  all: injection H as <- <-.
  all: rewrite <- ?app_assoc; eexists; (split; [reflexivity|]).
  all: split; [by eexists | reflexivity].
Qed.

Lemma getAddress_file_opens_only_that_file_witness :
  exists calls,
    (xmrtaker.getAddress (Demo.wallet false) "deposit" "pw" []).2 =
      ([] ++ calls)%list /\
    calls `prefix_of`
      [monero.OpenWallet "deposit" "pw"; monero.GetAddress 0;
       monero.CloseWallet] /\
    head calls = Some (monero.OpenWallet "deposit" "pw").
Proof.
  apply (getAddress_file_opens_only_that_file (Demo.wallet false) "deposit"
           "pw" []).
  discriminate.
Defined.

(** X4.  When creating the deposit wallet fails, [getAddress] falls back on
    opening it; when that fails too, the error it returns wraps the error
    of [OpenWallet], and the wallet is asked for nothing else. *)
Theorem getAddress_create_then_open_fails cl password tr e1 e2 :
  monero.createWallet cl xmrtaker.swapDepositWallet "" = Some e1 ->
  monero.openWallet cl xmrtaker.swapDepositWallet "" = Some e2 ->
  xmrtaker.getAddress cl "" password tr =
    (Err (ErrCreateOrOpenDepositWallet e2),
     (tr ++ [monero.CreateWallet xmrtaker.swapDepositWallet "";
             monero.OpenWallet xmrtaker.swapDepositWallet ""])%list).
Proof.
  intros Hcreate Hopen.
  destruct (xmrtaker.getAddress cl "" password tr) as [r tr'] eqn:H.
  unfold xmrtaker.getAddress in H.
  change (bool_decide ("" ≠ "")) with false in H.
  wsimpl H. rewrite Hcreate in H.
  wsimpl H. rewrite Hopen in H.
  wsimpl H. injection H as <- <-.
  by rewrite <- app_assoc.
Qed.

Lemma getAddress_create_then_open_fails_witness :
  xmrtaker.getAddress
    {| monero.openWallet := fun _ _ => Some (ErrExternal "no such wallet");
       monero.createWallet := fun _ _ => Some (ErrExternal "read-only dir");
       monero.getAddress := fun _ => inr "4AdUndXHHZ";
       monero.closeWallet := None |} "" "pw" [] =
    (Err (ErrCreateOrOpenDepositWallet (ErrExternal "no such wallet")),
     [monero.CreateWallet xmrtaker.swapDepositWallet "";
      monero.OpenWallet xmrtaker.swapDepositWallet ""]).
Proof.
  apply (getAddress_create_then_open_fails
           {| monero.openWallet := fun _ _ => Some (ErrExternal "no such wallet");
              monero.createWallet :=
                fun _ _ => Some (ErrExternal "read-only dir");
              monero.getAddress := fun _ => inr "4AdUndXHHZ";
              monero.closeWallet := None |} "pw" []
           (ErrExternal "read-only dir") (ErrExternal "no such wallet"));
    reflexivity.
Defined.



(** ** Log levels and the end of [runDaemon] *)

(** X7.  With a log level that is none of the four, [runDaemon] returns the
    error about the level at once: no logger is set, no daemon is made,
    nothing is called, and the context is not even created. *)
Theorem runDaemon_invalid_log_level X c w :
  cli.String c flagLogLevel ∉ [levelError; levelWarn; levelInfo; levelDebug] ->
  runDaemon X c w = (Err (ErrInvalidLogLevel (cli.String c flagLogLevel)), w).
Proof.
  intros Hlevel. unfold runDaemon, setLogLevelsFromContext.
  by rewrite bool_decide_eq_false_2.
Qed.

Lemma runDaemon_invalid_log_level_witness :
  runDaemon (Demo.externals 1337 Panics)
    {[ flagLogLevel := VString "trace" ]} initialWorld =
    (Err (ErrInvalidLogLevel "trace"), initialWorld).
Proof.
  refine (eq_trans
            (runDaemon_invalid_log_level (Demo.externals 1337 Panics)
               {[ flagLogLevel := VString "trace" ]} initialWorld _) _).
  - vm_compute. intros Hin.
    repeat (apply elem_of_cons in Hin as [Hin|Hin]; [discriminate Hin|]).
    by apply elem_of_nil in Hin.
  - vm_compute. reflexivity.
Defined.


(** X9.  When [runDaemon] gets past the log level, the last thing it does is
    to cancel the root context, on every path: when the startup failed,
    after a clean stop, and when [stop] panics. *)
Theorem runDaemon_always_cancels X c w :
  cli.String c flagLogLevel ∈ [levelError; levelWarn; levelInfo; levelDebug] ->
  last (events (runDaemon X c w).2) = Some EvCancel.
Proof.
  intros Hlevel. unfold runDaemon, setLogLevelsFromContext.
  rewrite bool_decide_eq_true_2 by done.
  unfold setLogLevels, defer, mbind, M_bind, bind, mret, M_ret, ret.
  rewrite !emit_run. cbn -[goMake stopAndWarn emit].
  match goal with
  | |- context [let (r, s') := ?m in (r, (emit EvCancel s').2)] =>
      destruct m as [r s']
  end.
  cbn. apply last_snoc.
Qed.

Lemma runDaemon_always_cancels_witness :
  last (events (runDaemon (Demo.externals 1337 Panics) Demo.bothDevArgs
                  initialWorld).2) = Some EvCancel.
Proof.
  apply (runDaemon_always_cancels (Demo.externals 1337 Panics)
           Demo.bothDevArgs initialWorld).
  vm_compute. set_solver.
Defined.

(** ** [expandBootnodes] *)

Lemma splitComma_not_nil s : splitComma s <> [].
Proof.
  destruct s as [|ch rest]; cbn; [done|].
  destruct (Ascii.eqb ch _); [done|].
  by destruct (splitComma rest).
Qed.

Lemma splitComma_comma a b :
  splitComma (a +:+ "," +:+ b) = (splitComma a ++ splitComma b)%list.
Proof.
  induction a as [|ch a IH]; [reflexivity|].
  change (String ch a +:+ "," +:+ b) with (String ch (a +:+ "," +:+ b)).
  cbn [splitComma]. rewrite IH.
  destruct (Ascii.eqb ch _); [done|].
  pose proof (splitComma_not_nil a) as Hne.
  by destruct (splitComma a).
Qed.

Lemma splitComma_length s : length (splitComma s) = S (countCommas s).
Proof.
  induction s as [|ch rest IH]; cbn; [done|].
  destruct (Ascii.eqb ch _); cbn; [by rewrite IH|].
  pose proof (splitComma_not_nil rest) as Hne.
  destruct (splitComma rest); [done|]. cbn in *. done.
Qed.

(** X10.  Boot nodes given with one flag, separated by a comma, expand to the
    same list as the same boot nodes given with a flag each. *)
Theorem expandBootnodes_comma_or_flags X a b rest :
  expandBootnodes X ((a +:+ "," +:+ b) :: rest) =
  expandBootnodes X (a :: b :: rest).
Proof.
  unfold expandBootnodes. cbn [flat_map].
  by rewrite splitComma_comma, map_app, <- app_assoc.
Qed.

(** X11.  [expandBootnodes] drops nothing: every argument gives one node more
    than it has commas, so an empty argument, or the empty piece after a
    trailing comma, is a node of its own. *)
Theorem expandBootnodes_length X nodesCLI :
  length (expandBootnodes X nodesCLI) =
  sum_list (map (fun n => S (countCommas n)) nodesCLI).
Proof.
  unfold expandBootnodes.
  induction nodesCLI as [|n l IH]; cbn [flat_map map sum_list]; [done|].
  rewrite length_app, length_map, splitComma_length, IH. done.
Qed.

(** ** [newBackend] and [getProtocolInstances] *)

Ltac trace_lists :=
  cbn [omap list_omap existsb app isGetKey isContract isNewWalletClient
       walletClientsMade walletClientsClosed backendsMade backendsClosed
       hostConfigs databaseDirs serverConfigs orb length].

(** X12.  [newBackend] does not leak the wallet client: when it returns an
    error after the wallet client was made, it has closed the wallet
    client; when it returns a backend, the wallet client is open and in
    the hands of the backend.  At most one wallet client is made. *)
Theorem newBackend_wallet_client_closed_on_error
    X c env cfg dm dt sm net ec w r w' :
  newBackend X c env cfg dm dt sm net ec w = (r, w') ->
  let tr := newEvents w w' in
  walletClientsClosed tr =
    match r with Ok _ => [] | _ => walletClientsMade X tr end /\
  (length (walletClientsMade X tr) <= 1)%nat.
Proof.
  intros H. unfold newBackend in H.
  symex H.
  all: injection H as <- <-.
  all: cbn zeta; normal_trace; unfold walletClientsMade, walletClientsClosed.
  all: trace_lists; use_equations; trace_lists.
  all: split; [reflexivity | lia].
Qed.

Lemma newBackend_wallet_client_closed_on_error_witness :
  let X := Demo.externals 1337 Panics in
  let run :=
    newBackend X Demo.deployArgs Development
      (Demo.devConfig "/home/u/.atomicswap/dev" 0) false false
      (MkSwapManager 1) (MkHost 1) (MkEthClient 1) initialWorld in
  walletClientsMade X (newEvents initialWorld run.2) =
    [monero.MkWalletClient 1] /\
  walletClientsClosed (newEvents initialWorld run.2) =
    match run.1 with
    | Ok _ => []
    | _ => walletClientsMade X (newEvents initialWorld run.2)
    end.
Proof.
  cbv zeta. split; [vm_compute; reflexivity|].
  apply (newBackend_wallet_client_closed_on_error
           (Demo.externals 1337 Panics) Demo.deployArgs Development
           (Demo.devConfig "/home/u/.atomicswap/dev" 0) false false
           (MkSwapManager 1) (MkHost 1) (MkEthClient 1) initialWorld).
  apply surjective_pairing.
Defined.

(** X13.  With an external signer [newBackend] never loads an Ethereum key,
    and a key file given with the flag at the same time is rejected
    before anything is called. *)
Theorem newBackend_external_signer_loads_no_key
    X c env cfg dm dt sm net ec w r w' :
  cli.Bool c flagUseExternalSigner = true ->
  newBackend X c env cfg dm dt sm net ec w = (r, w') ->
  existsb isGetKey (newEvents w w') = false /\
  (cli.IsSet c flagEthereumPrivKey = true ->
   r = Err (errFlagsMutuallyExclusive flagUseExternalSigner
              flagEthereumPrivKey) /\ w' = w).
Proof.
  intros Hext H. unfold newBackend in H. rewrite Hext in H.
  cbn [andb negb] in H.
  symex H.
  all: injection H as <- <-.
  all: normal_trace; trace_lists.
  all: split; [reflexivity | first [done | congruence]].
Qed.

Lemma newBackend_external_signer_loads_no_key_witness :
  let X := Demo.externals 1337 Panics in
  let c : Context := <[flagUseExternalSigner := VBool true]> Demo.deployArgs in
  let run :=
    newBackend X c Development (Demo.devConfig "/home/u/.atomicswap/dev" 0)
      false false (MkSwapManager 1) (MkHost 1) (MkEthClient 1) initialWorld in
  (exists b, run.1 = Ok b) /\
  existsb isGetKey (newEvents initialWorld run.2) = false.
Proof.
  cbv zeta. split; [eexists; vm_compute; reflexivity|].
  eapply (newBackend_external_signer_loads_no_key
            (Demo.externals 1337 Panics)
            (<[flagUseExternalSigner := VBool true]> Demo.deployArgs)).
  - vm_compute; reflexivity.
  - apply surjective_pairing.
Defined.

(** X14.  The two protocol instances that [getProtocolInstances] returns are
    made over the same backend, data directory, wallet file and wallet
    password; the XMRMaker instance also gets the database and the
    host. *)
Theorem getProtocolInstances_same_wallet X c cfg b db h w a m w' :
  getProtocolInstances X c cfg b db h w = (Ok (a, m), w') ->
  exists mcfg,
    xmrmaker_NewInstance X mcfg = inr m /\
    last (newEvents w w') = Some (EvXMRMakerNewInstance mcfg) /\
    xmrmaker.Backend mcfg = b /\ xmrtaker.backend a = b /\
    xmrmaker.DataDir mcfg = xmrtaker.basepath a /\
    xmrmaker.WalletFile mcfg = xmrtaker.walletFile a /\
    xmrmaker.WalletPassword mcfg = xmrtaker.walletPassword a /\
    xmrmaker.Database_ mcfg = db /\ xmrmaker.Network mcfg = h.
Proof.
  intros H. unfold getProtocolInstances in H.
  symex H.
  all: first [ discriminate H | injection H as <- <- <- ].
  all: match goal with
       | Hn : xmrtaker.NewInstance _ _ = (Ok _, _) |- _ =>
           apply NewInstance_ok_fields in Hn
             as (Hb & Hbase & Hfile & Hpw & _ & _)
       end.
  all: eexists; split; [eassumption|].
  all: split; [normal_trace; by rewrite ?app_comm_cons, last_snoc|].
  all: cbn; rewrite ?Hb, ?Hbase, ?Hfile, ?Hpw; repeat split; reflexivity.
Qed.

Lemma getProtocolInstances_same_wallet_witness :
  let run :=
    getProtocolInstances (Demo.externals 1337 Panics) Demo.deployArgs
      (Demo.devConfig "/home/u/.atomicswap/dev" 0) Demo.theBackend
      (MkDatabase 1) (MkHost 1) initialWorld in
  exists mcfg,
    xmrmaker.WalletFile mcfg = "/home/u/.atomicswap/dev/wallet/w" /\
    last (newEvents initialWorld run.2) = Some (EvXMRMakerNewInstance mcfg).
Proof.
  cbv zeta.
  destruct (getProtocolInstances_same_wallet (Demo.externals 1337 Panics)
              Demo.deployArgs (Demo.devConfig "/home/u/.atomicswap/dev" 0)
              Demo.theBackend (MkDatabase 1) (MkHost 1) initialWorld
              {| xmrtaker.backend := Demo.theBackend;
                 xmrtaker.basepath := "/home/u/.atomicswap/dev";
                 xmrtaker.walletFile := "/home/u/.atomicswap/dev/wallet/w";
                 xmrtaker.walletPassword := "";
                 xmrtaker.walletAddress := "";
                 xmrtaker.transferBack := false;
                 xmrtaker.swapMu := false;
                 xmrtaker.swapState_ := None |}
              (MkXMRMakerInstance 1)
              (getProtocolInstances (Demo.externals 1337 Panics)
                 Demo.deployArgs (Demo.devConfig "/home/u/.atomicswap/dev" 0)
                 Demo.theBackend (MkDatabase 1) (MkHost 1) initialWorld).2)
    as (mcfg & _ & Hlast & _ & _ & _ & Hfile & _).
  - vm_compute. reflexivity.
  - exists mcfg. split; assumption.
Defined.

Ltac negb_equations :=
  repeat match goal with
    | E : negb _ = true |- _ => apply negb_true_iff in E
    | E : negb _ = false |- _ => apply negb_false_iff in E
    end.

Ltac resolve_in Hc :=
  repeat match goal with
    | E : ?x = _ |- _ =>
        tryif constr_eq E Hc then fail
        else match type of Hc with context [x] => rewrite E in Hc end
    end;
  cbv beta iota in Hc.

Ltac late_check_cases H Hchoice :=
  injection H as <- <-;
  negb_equations;
  try match goal with
    | E : bool_decide ("" = "") = false |- _ => by vm_compute in E
    end;
  resolve_in Hchoice;
  first
    [ discriminate Hchoice
    | injection Hchoice as <-;
      first [ congruence | f_equal; close_world; reflexivity ] ].

(** X15.  The flags of the Monero daemon are looked at after the contract: an
    empty [monerod-host] is rejected by [newBackend] only when the call
    of [getOrDeploySwapFactory], which may have deployed a contract, has
    returned, and before the wallet client is made. *)
Theorem newBackend_empty_monerod_host_after_contract
    X c env cfg dm dt sm net ec w key tr a res :
  signerReady X c env cfg dm dt key tr ->
  contractChoice X c cfg = Some a ->
  getOrDeploySwapFactory X a env (common.DataDir cfg) key ec = inr res ->
  cli.IsSet c flagMoneroDaemonHost = true ->
  cli.String c flagMoneroDaemonHost = "" ->
  newBackend X c env cfg dm dt sm net ec w =
    (Err (errFlagValueEmpty flagMoneroDaemonHost),
     addEvents w
       (tr ++ [EvGetOrDeploySwapFactory a env (common.DataDir cfg) key ec])).
Proof.
  intros Hs Hchoice Hres Hset Hempty.
  destruct (newBackend X c env cfg dm dt sm net ec w) as [r w'] eqn:H.
  unfold newBackend in H. rewrite !bool_decide_not in H.
  rewrite Hset, Hempty in H.
  unfold contractChoice, configuredContract in Hchoice.
  destruct Hs as [Hext Hnokey | k Hext Hnonempty Hkey].
  - rewrite Hext, Hnokey in H. cbn [andb negb] in H.
    symex H; late_check_cases H Hchoice.
  - rewrite Hext in H. cbn [andb negb] in H.
    unfold ethKeyFile in *.
    destruct (cli.IsSet c flagEthereumPrivKey).
    + rewrite (bool_decide_eq_false_2 _ (Hnonempty eq_refl)) in H.
      run_simpl H. rewrite Hkey in H.
      symex H; late_check_cases H Hchoice.
    + run_simpl H. rewrite Hkey in H.
      symex H; late_check_cases H Hchoice.
Qed.

Lemma newBackend_empty_monerod_host_after_contract_witness :
  let X := Demo.externals 1337 Panics in
  let c : Context := <[flagMoneroDaemonHost := VString ""]> Demo.deployArgs in
  let cfg := Demo.devConfig "/home/u/.atomicswap/dev" 0 in
  newBackend X c Development cfg false false (MkSwapManager 1) (MkHost 1)
    (MkEthClient 1) initialWorld =
    (Err (errFlagValueEmpty flagMoneroDaemonHost),
     addEvents initialWorld
       ([EvGetEthereumPrivateKey (ethKeyFile X c cfg) Development false false]
        ++ [EvGetOrDeploySwapFactory zeroAddress Development
              (common.DataDir cfg) (Some (MkPrivateKey 1)) (MkEthClient 1)])).
Proof.
  cbv zeta.
  eapply (newBackend_empty_monerod_host_after_contract
            (Demo.externals 1337 Panics)
            (<[flagMoneroDaemonHost := VString ""]> Demo.deployArgs)
            Development (Demo.devConfig "/home/u/.atomicswap/dev" 0)).
  - apply keyLoaded.
    + vm_compute; reflexivity.
    + intros Hset. vm_compute in Hset. discriminate Hset.
    + vm_compute; reflexivity.
  - vm_compute; reflexivity.
  - vm_compute; reflexivity.
  - vm_compute; reflexivity.
  - vm_compute; reflexivity.
Defined.

(** ** [make]: invariants of every run *)

Lemma omap_phase {A : Type} (P : Event -> bool) (f : Event -> option A) tr :
  Forall (fun e => P e = true) tr ->
  (forall e, P e = true -> f e = None) ->
  omap f tr = [].
Proof.
  intros Hall Hf. induction Hall as [|e tr He _ IH]; [done|].
  cbn. by rewrite (Hf e He), IH.
Qed.

(** The events of [newBackend] are its own, and the backend it made, if
    any, is the one it returns. *)
Lemma newBackend_phase X c env cfg dm dt sm net ec w r w' :
  newBackend X c env cfg dm dt sm net ec w = (r, w') ->
  exists tr,
    w' = addEvents w tr /\
    Forall (fun e => isBackendPhase e = true) tr /\
    backendsMade X tr = match r with Ok b => [b] | _ => [] end.
Proof.
  intros H. unfold newBackend in H.
  symex H.
  all: injection H as <- <-.
  all: first [ exists []; rewrite addEvents_nil; split; [reflexivity|]
             | close_world; eexists; split; [reflexivity|] ].
  all: split; [repeat constructor|].
  all: unfold backendsMade; trace_lists; use_equations; reflexivity.
Qed.

Lemma getProtocolInstances_phase X c cfg b db h w r w' :
  getProtocolInstances X c cfg b db h w = (r, w') ->
  exists tr,
    w' = addEvents w tr /\ Forall (fun e => isProtocolPhase e = true) tr.
Proof.
  intros H. unfold getProtocolInstances in H.
  symex H.
  all: injection H as <- <-.
  all: first [ exists []; rewrite addEvents_nil; split; [reflexivity|]
             | close_world; eexists; split; [reflexivity|] ].
  all: repeat first
         [ apply Forall_nil_2
         | apply Forall_cons_2; [reflexivity|]
         | apply Forall_app_2
         | by apply Forall_forall; intros ? (? & -> & _)%list_elem_of_fmap ].
Qed.

Ltac use_phases :=
  repeat match goal with
    | Hb : newBackend _ _ _ _ _ _ _ _ _ _ = (_, _) |- _ =>
        apply newBackend_phase in Hb as (?trB & -> & ?HphaseB & ?HmadeB)
    | Hg : getProtocolInstances _ _ _ _ _ _ _ = (_, _) |- _ =>
        apply getProtocolInstances_phase in Hg as (?trG & -> & ?HphaseG)
    end.

(** Evaluation of a list of values taken from a trace in which the
    events of [newBackend] and [getProtocolInstances] are not known. *)
Ltac phase_lists :=
  repeat first
    [ progress trace_lists
    | rewrite omap_app
    | match goal with
      | Hp : Forall (fun e => isBackendPhase e = true) ?t
        |- context [omap ?f ?t] =>
          rewrite (omap_phase isBackendPhase f t Hp) by (by intros [])
      | Hp : Forall (fun e => isProtocolPhase e = true) ?t
        |- context [omap ?f ?t] =>
          rewrite (omap_phase isProtocolPhase f t Hp) by (by intros [])
      end ].

Ltac solve_last :=
  repeat first [ rewrite last_cons | rewrite last_app ]; reflexivity.

(** X16.  [make] fills the fields of a fresh daemon in the order host,
    database, RPC server: in whatever state a run leaves the daemon, a
    database that is set comes with a host, and an RPC server with a
    database.  When [make] returns nil all three are set. *)
Theorem make_daemon_fields_in_order X c w r w' :
  make X c w = (r, w') ->
  dmn w = newDaemon ->
  (is_Some (database (dmn w')) -> is_Some (host (dmn w'))) /\
  (is_Some (rpcServer (dmn w')) -> is_Some (database (dmn w'))) /\
  (r = Ok tt -> is_Some (rpcServer (dmn w'))).
Proof.
  intros H Hd. unfold make in H.
  symex H.
  all: use_appends.
  all: injection H as <- <-.
  all: unfold addEvents; cbn [dmn]; rewrite ?Hd; cbn.
  all: repeat split; intros Hs;
       first [ discriminate Hs | by destruct Hs | by eexists ].
Qed.

Lemma make_daemon_fields_in_order_witness :
  let w' := (make (Demo.externals 1337 Panics) ∅ initialWorld).2 in
  (exists e, (make (Demo.externals 1337 Panics) ∅ initialWorld).1 = Err e) /\
  is_Some (database (dmn w')) /\ is_Some (host (dmn w')) /\
  rpcServer (dmn w') = None.
Proof.
  cbv zeta. split; [eexists; vm_compute; reflexivity|].
  split; [vm_compute; by eexists|].
  split; [|vm_compute; reflexivity].
  eapply (make_daemon_fields_in_order (Demo.externals 1337 Panics) ∅
            initialWorld).
  - apply surjective_pairing.
  - reflexivity.
  - vm_compute; by eexists.
Defined.

(** X17.  A backend that [make] got from [newBackend] is closed on every path
    on which [make] returns, and closing it is the last thing [make]
    does; [make] closes no other backend. *)
Theorem make_closes_backend X c w r w' :
  make X c w = (r, w') ->
  let tr := newEvents w w' in
  backendsClosed tr = backendsMade X tr /\
  (length (backendsMade X tr) <= 1)%nat /\
  forall b, b ∈ backendsMade X tr -> last tr = Some (EvBackendClose b).
Proof.
  intros H. unfold make in H.
  symex H.
  all: use_phases.
  all: injection H as <- <-.
  all: cbn zeta; normal_trace; unfold backendsClosed, backendsMade in *.
  all: phase_lists; rewrite ?HmadeB; phase_lists.
  all: split; [reflexivity|]; split; [cbn; lia|].
  all: intros b0 Hin; first [ by apply elem_of_nil in Hin | idtac ].
  all: apply list_elem_of_singleton in Hin as ->.
  all: solve_last.
Qed.

Lemma make_closes_backend_witness :
  let X := Demo.externals 1337 Panics in
  let tr := newEvents initialWorld (make X Demo.deployArgs initialWorld).2 in
  backendsMade X tr = [Demo.theBackend] /\
  backendsClosed tr = backendsMade X tr.
Proof.
  cbv zeta. split; [vm_compute; reflexivity|].
  eapply (make_closes_backend (Demo.externals 1337 Panics) Demo.deployArgs
            initialWorld).
  apply surjective_pairing.
Defined.

Lemma uint16_lt n : uint16 n < 65536.
Proof. unfold uint16. by apply N.mod_lt. Qed.

(** X18.  The RPC server of the daemon listens on the loopback address only,
    on a port below 65536: a port given with the flag is reduced modulo
    65536. *)
Theorem make_rpc_server_on_loopback X c w r w' :
  make X c w = (r, w') ->
  Forall (fun cfg =>
            exists port,
              port < 65536 /\
              rpc.Address_ cfg = "127.0.0.1:" +:+ pretty port /\
              (cli.IsSet c flagRPCPort = true ->
               port = cli.Uint c flagRPCPort mod 65536))
    (serverConfigs (newEvents w w')).
Proof.
  intros H. unfold make in H.
  symex H.
  all: use_phases.
  all: injection H as <- <-.
  all: normal_trace; unfold serverConfigs; phase_lists.
  all: repeat constructor.
  all: cbn [rpc.Address_]; eexists; split; [|split; [reflexivity|]].
  all: try (intros ->; reflexivity).
  all: destruct (cli.IsSet c flagRPCPort), (cli.Bool c flagDevXMRTaker),
         (cli.Bool c flagDevXMRMaker); cbn [negb];
       first [ apply uint16_lt | reflexivity ].
Qed.

Lemma make_rpc_server_on_loopback_witness :
  let c : Context := <[flagRPCPort := VUint 70000]> Demo.deployArgs in
  let tr :=
    newEvents initialWorld
      (make (Demo.externals 1337 Panics) c initialWorld).2 in
  map rpc.Address_ (serverConfigs tr) = ["127.0.0.1:4464"] /\
  Forall (fun cfg =>
            exists port,
              port < 65536 /\
              rpc.Address_ cfg = "127.0.0.1:" +:+ pretty port /\
              (cli.IsSet c flagRPCPort = true ->
               port = cli.Uint c flagRPCPort mod 65536))
    (serverConfigs tr).
Proof.
  cbv zeta. split; [vm_compute; reflexivity|].
  eapply (make_rpc_server_on_loopback (Demo.externals 1337 Panics)
            (<[flagRPCPort := VUint 70000]> Demo.deployArgs) initialWorld).
  apply surjective_pairing.
Defined.

(** X19.  The data directory that [make] creates is the one it hands on: the
    network host gets that directory, the database is opened in its
    subdirectory [db], and both are made only after the directory; the
    port of the host is below 65536. *)
Theorem make_data_dir_shared X c w r w' :
  make X c w = (r, w') ->
  forall e rest,
    newEvents w w' = e :: rest ->
    exists dir,
      e = EvMakeDir dir /\
      Forall (fun cfg => net.DataDir cfg = dir /\ net.Port cfg < 65536)
        (hostConfigs rest) /\
      Forall (fun dbDir => dbDir = path_Join X dir "db") (databaseDirs rest).
Proof.
  intros H. unfold make in H.
  symex H.
  all: use_phases.
  all: injection H as <- <-.
  all: normal_trace; intros ev rest Htr.
  all: first [ discriminate Htr | injection Htr as <- <- ].
  all: eexists; split; [reflexivity|].
  all: unfold hostConfigs, databaseDirs; phase_lists.
  all: split; repeat constructor.
  all: cbn [net.DataDir net.Port];
       destruct (bool_decide (0 < length (cli.StringSlice c flagBootnodes))%nat);
       try reflexivity.
  all: destruct (cli.IsSet c flagLibp2pPort), (cli.Bool c flagDevXMRTaker),
         (cli.Bool c flagDevXMRMaker); cbn [negb];
       first [ apply uint16_lt | reflexivity ].
Qed.

Lemma make_data_dir_shared_witness :
  let X := Demo.externals 1337 Panics in
  let c : Context := <[flagDataDir := VString "/data"]> Demo.deployArgs in
  let tr := newEvents initialWorld (make X c initialWorld).2 in
  exists rest,
    tr = EvMakeDir "/data" :: rest /\
    Forall (fun dbDir => dbDir = path_Join X "/data" "db") (databaseDirs rest)
    /\ databaseDirs rest <> [].
Proof.
  cbv zeta. eexists. split; [vm_compute; reflexivity|].
  split; [|by vm_compute].
  edestruct (make_data_dir_shared (Demo.externals 1337 Panics)
               (<[flagDataDir := VString "/data"]> Demo.deployArgs)
               initialWorld) as (dir & Hdir & _ & Hdb).
  - apply surjective_pairing.
  - vm_compute. reflexivity.
  - injection Hdir as <-. exact Hdb.
Defined.

(** X20.  A data directory given with the flag is the one that is used,
    whatever the environment and the development flags say: the first
    call of [make], if it makes any, creates that directory.  An empty
    value is rejected before anything is called. *)
Theorem make_data_dir_flag_first X c w r w' :
  make X c w = (r, w') ->
  cli.IsSet c flagDataDir = true ->
  (forall e, head (newEvents w w') = Some e ->
             e = EvMakeDir (cli.String c flagDataDir)) /\
  (cli.String c flagDataDir = "" -> w' = w /\ exists err, r = Err err).
Proof.
  intros H Hset. unfold make in H. rewrite Hset in H.
  symex H.
  all: use_appends.
  all: injection H as <- <-.
  all: normal_trace.
  all: split;
       [ intros ev Hhead; first [ discriminate Hhead | by injection Hhead ]
       | intros Hempty ].
  all: try (split; [reflexivity | by eexists]).
  all: match goal with
       | E : bool_decide (_ = "") = false |- _ =>
           by apply bool_decide_eq_false_1 in E
       end.
Qed.

Lemma make_data_dir_flag_first_witness :
  let c : Context :=
    <[flagDataDir := VString "/data"]>
      (<[flagDevXMRTaker := VBool true]> Demo.deployArgs) in
  let tr :=
    newEvents initialWorld
      (make (Demo.externals 1337 Panics) c initialWorld).2 in
  head tr <> None /\
  forall e, head tr = Some e -> e = EvMakeDir (cli.String c flagDataDir).
Proof.
  cbv zeta. split; [by vm_compute|].
  eapply (make_data_dir_flag_first (Demo.externals 1337 Panics)
            (<[flagDataDir := VString "/data"]>
               (<[flagDevXMRTaker := VBool true]> Demo.deployArgs))
            initialWorld).
  - apply surjective_pairing.
  - vm_compute; reflexivity.
Defined.

(** ** [runDaemon]: a startup that succeeds *)





(** ** [make]: the host and the RPC server *)

Lemma filter_phase (P Q : Event -> bool) tr :
  Forall (fun e => P e = true) tr ->
  (forall e, P e = true -> Q e = false) ->
  List.filter Q tr = [].
Proof.
  intros Hall HQ. induction Hall as [|e tr He _ IH]; [done|].
  cbn. by rewrite (HQ e He), IH.
Qed.

Ltac phase_filter :=
  repeat first
    [ progress cbn [List.filter isLifecycle app]
    | rewrite List.filter_app
    | match goal with
      | Hp : Forall (fun e => isBackendPhase e = true) ?t
        |- context [List.filter ?f ?t] =>
          rewrite (filter_phase isBackendPhase f t Hp) by (by intros [])
      | Hp : Forall (fun e => isProtocolPhase e = true) ?t
        |- context [List.filter ?f ?t] =>
          rewrite (filter_phase isProtocolPhase f t Hp) by (by intros [])
      end ].

(** X22.  In every run of [make], complete or not, the host is started only
    after a handler was set on it, the RPC server is made only after the
    host was started, over that host and that handler, and the server
    that is started is the one that was made; none of this happens
    twice. *)
Theorem make_host_and_server_in_order X c w r w' :
  make X c w = (r, w') ->
  lifecycleInOrder X (List.filter isLifecycle (newEvents w w')).
Proof.
  intros H. unfold make in H.
  symex H.
  all: use_phases.
  all: injection H as <- <-.
  all: normal_trace; phase_filter.
  all: cbn [lifecycleInOrder rpc.Net rpc.XMRMaker]; repeat split;
       first [ reflexivity | eassumption ].
Qed.

Lemma make_host_and_server_in_order_witness :
  let X := Demo.externals 1337 Panics in
  let tr := newEvents initialWorld (make X Demo.deployArgs initialWorld).2 in
  length (List.filter isLifecycle tr) = 4%nat /\
  lifecycleInOrder X (List.filter isLifecycle tr).
Proof.
  cbv zeta. split; [vm_compute; reflexivity|].
  eapply (make_host_and_server_in_order (Demo.externals 1337 Panics)
            Demo.deployArgs initialWorld).
  apply surjective_pairing.
Defined.

(** X23.  With an empty [libp2p-key] flag [make] returns an error before it
    dials the Ethereum node or makes any component; the most it has done
    is to create the data directory. *)
Theorem make_empty_libp2p_key X c w r w' :
  make X c w = (r, w') ->
  cli.IsSet c flagLibp2pKey = true ->
  cli.String c flagLibp2pKey = "" ->
  (exists err, r = Err err) /\
  dmn w' = dmn w /\
  (newEvents w w' = [] \/ exists dir, newEvents w w' = [EvMakeDir dir]).
Proof.
  intros H Hset Hempty. unfold make in H. rewrite Hset, Hempty in H.
  symex H.
  all: try match goal with
       | E : bool_decide ("" = "") = false |- _ => by vm_compute in E
       end.
  all: injection H as <- <-.
  all: normal_trace.
  all: split; [by eexists|]; split; [reflexivity|].
  all: first [ by left | right; by eexists ].
Qed.

Lemma make_empty_libp2p_key_witness :
  let c : Context := <[flagLibp2pKey := VString ""]> Demo.deployArgs in
  let run := make (Demo.externals 1337 Panics) c initialWorld in
  run.1 = Err (errFlagValueEmpty flagLibp2pKey) /\
  (newEvents initialWorld run.2 = [] \/
   exists dir, newEvents initialWorld run.2 = [EvMakeDir dir]).
Proof.
  cbv zeta. split; [vm_compute; reflexivity|].
  eapply (make_empty_libp2p_key (Demo.externals 1337 Panics)
            (<[flagLibp2pKey := VString ""]> Demo.deployArgs) initialWorld).
  - apply surjective_pairing.
  - vm_compute; reflexivity.
  - vm_compute; reflexivity.
Defined.

(** ** [getAddress]: the path on which it succeeds *)

Lemma getAddress_ok_closes_witness :
  monero.closeWallet (Demo.wallet false) = None /\
  monero.getAddress (Demo.wallet false) 0 = inr "4AdUndXHHZ" /\
  exists pre,
    [monero.OpenWallet "deposit" ""; monero.GetAddress 0; monero.CloseWallet]
    = ([] ++ pre ++ [monero.GetAddress 0; monero.CloseWallet])%list.
Proof.
  apply (getAddress_ok_closes (Demo.wallet false) "deposit" "" []
           "4AdUndXHHZ"
           [monero.OpenWallet "deposit" ""; monero.GetAddress 0;
            monero.CloseWallet]).
  reflexivity.
Defined.
